(** * MYOB invoice downloader: a shallow embedding of [app.py]

    The program lists the purchase bills of a date range through the MYOB
    AccountRight API, lists the attachments of each bill and downloads each
    attachment into a local directory.  The embedding follows [app.py]
    function by function.  Network, file system and the interpreter's own
    texts are an explicit environment; everything the source computes
    itself (query strings, dates, file names, counters, handlers) is
    computed here. *)

From Stdlib Require Import ZArith String Ascii List Bool Lia.
From stdpp Require Import base option list gmap strings.
Import ListNotations.

Local Open Scope string_scope.
Local Open Scope list_scope.

(** ** Python strings

    A [str] is a sequence of code points; the model keeps the code points
    below 256, so the only decimal digits are the ASCII ones. *)

Module PyStr.

Definition chars (s : string) : list ascii := list_ascii_of_string s.
Definition of_chars (l : list ascii) : string := string_of_list_ascii l.

(** [sep.join(parts)] *)
Fixpoint join (sep : string) (parts : list string) : string :=
  match parts with
  | [] => ""
  | [p] => p
  | p :: rest => p +:+ sep +:+ join sep rest
  end.

(** [s.lstrip(c)] for a one-character set *)
Fixpoint lstrip_chars (c : ascii) (l : list ascii) : list ascii :=
  match l with
  | [] => []
  | x :: rest => if Ascii.eqb x c then lstrip_chars c rest else l
  end.

Definition rstrip_chars (c : ascii) (l : list ascii) : list ascii :=
  rev (lstrip_chars c (rev l)).

(** [s.strip(c)] for a one-character set: leading, then trailing *)
Definition strip (c : ascii) (s : string) : string :=
  of_chars (rstrip_chars c (lstrip_chars c (chars s))).

Definition starts_with (c : ascii) (s : string) : bool :=
  match s with
  | String x _ => Ascii.eqb x c
  | EmptyString => false
  end.

Definition ends_with (c : ascii) (s : string) : bool :=
  match rev (chars s) with
  | x :: _ => Ascii.eqb x c
  | [] => false
  end.

Definition is_empty (s : string) : bool :=
  match s with EmptyString => true | _ => false end.

Definition digit_char (d : Z) : ascii := ascii_of_nat (48 + Z.to_nat d).

Definition is_digit (c : ascii) : bool :=
  (48 <=? nat_of_ascii c)%nat && (nat_of_ascii c <=? 57)%nat.

Definition digit_val (c : ascii) : Z := Z.of_nat (nat_of_ascii c) - 48.

(** decimal digits of a natural number, most significant first *)
Fixpoint digits_fuel (fuel : nat) (n : Z) (acc : list ascii) : list ascii :=
  match fuel with
  | O => acc
  | S fuel' =>
      let acc' := digit_char (n mod 10) :: acc in
      if (n <? 10)%Z then acc' else digits_fuel fuel' (n / 10)%Z acc'
  end.

(** [str(n)] for an [int] *)
Definition of_int (n : Z) : string :=
  let a := Z.abs n in
  let ds := of_chars (digits_fuel (S (Z.to_nat (Z.log2 a))) a []) in
  if (n <? 0)%Z then "-" +:+ ds else ds.

(** zero-padded field of width two, as [%m], [%d] of [strftime], and of
    width four, as [%Y] *)
Definition pad2 (n : Z) : string :=
  of_chars [digit_char (n / 10); digit_char (n mod 10)].

Definition pad4 (n : Z) : string :=
  of_chars [digit_char (n / 1000); digit_char (n / 100 mod 10);
            digit_char (n / 10 mod 10); digit_char (n mod 10)].

End PyStr.

(** ** Python values

    The values the program handles are decoded JSON and dictionaries of
    parameters.  A [dict] keeps insertion order, so it is an association
    list; its keys are strings.  Numbers are the integers. *)

#[warnings="-register-all"]
Inductive value : Type :=
| VNone
| VBool (b : bool)
| VInt (n : Z)
| VStr (s : string)
| VList (items : list value)
| VDict (entries : list (string * value)).

Abbreviation dict := (list (string * value)).

(** What the interpreter and the libraries raise on their own.  Their
    message texts are not part of [app.py]. *)
Inductive failure : Type :=
| AttributeError (receiver : value) (attr : string)
| KeyError (key : string)
| IndexError (receiver : value)
| TypeError (operation : string) (operand : value)
| ValueError_time_data (data : string) (format : string)
| JSONDecodeError (body : string)
| RequestException (detail : string)
| OSError (path : string).

Inductive exn : Type :=
| Exception (msg : string)
| Builtin (f : failure).

Inductive outcome (A : Type) : Type :=
| Ok (a : A)
| Raise (e : exn).
Arguments Ok {A} a.
Arguments Raise {A} e.

Module PyVal.

(** [k in d] and [d.get(k)] on the entries of a dict *)
Fixpoint lookup (k : string) (d : dict) : option value :=
  match d with
  | [] => None
  | (k', v) :: rest => if String.eqb k' k then Some v else lookup k rest
  end.

Definition contains (k : string) (d : dict) : bool :=
  match lookup k d with Some _ => true | None => false end.

(** [d.pop(k, None)]: the entry leaves, the others keep their order *)
Fixpoint pop (k : string) (d : dict) : dict :=
  match d with
  | [] => []
  | (k', v) :: rest =>
      if String.eqb k' k then pop k rest else (k', v) :: pop k rest
  end.

(** [bool(v)] *)
Definition truthy (v : value) : bool :=
  match v with
  | VNone => false
  | VBool b => b
  | VInt n => negb (n =? 0)%Z
  | VStr s => negb (PyStr.is_empty s)
  | VList l => match l with [] => false | _ => true end
  | VDict d => match d with [] => false | _ => true end
  end.

(** [v.get(k, default)] *)
Definition get (v : value) (k : string) (default : value) : outcome value :=
  match v with
  | VDict d => Ok (match lookup k d with Some x => x | None => default end)
  | _ => Raise (Builtin (AttributeError v "get"))
  end.

(** [v.items()] *)
Definition items (v : value) : outcome dict :=
  match v with
  | VDict d => Ok d
  | _ => Raise (Builtin (AttributeError v "items"))
  end.

(** [v[k]] for a string key *)
Definition subscript (v : value) (k : string) : outcome value :=
  match v with
  | VDict d =>
      match lookup k d with
      | Some x => Ok x
      | None => Raise (Builtin (KeyError k))
      end
  | _ => Raise (Builtin (TypeError "subscript" v))
  end.

(** [v[0]] *)
Definition first (v : value) : outcome value :=
  match v with
  | VList (x :: _) => Ok x
  | VList [] => Raise (Builtin (IndexError v))
  | VStr (String c _) => Ok (VStr (String c EmptyString))
  | VStr EmptyString => Raise (Builtin (IndexError v))
  | VDict _ => Raise (Builtin (KeyError "0"))
  | _ => Raise (Builtin (TypeError "subscript" v))
  end.

(** [len(v)] *)
Definition len (v : value) : outcome Z :=
  match v with
  | VStr s => Ok (Z.of_nat (String.length s))
  | VList l => Ok (Z.of_nat (length l))
  | VDict d => Ok (Z.of_nat (length d))
  | _ => Raise (Builtin (TypeError "len" v))
  end.

(** the elements a [for] loop visits *)
Definition iter (v : value) : outcome (list value) :=
  match v with
  | VList l => Ok l
  | VStr s => Ok (map (fun c => VStr (String c EmptyString)) (PyStr.chars s))
  | VDict d => Ok (map (fun kv => VStr (fst kv)) d)
  | _ => Raise (Builtin (TypeError "iter" v))
  end.

End PyVal.

(** ** [datetime.strptime] and [strftime]

    [_strptime] turns a format into a regular expression, one group per
    directive, matched from the start of the string with [re.IGNORECASE];
    the text left after the match must be empty, and the fields must make
    a date [datetime] accepts. *)

Module DateTime.

Record datetime : Type := mk_datetime {
  year : Z; month : Z; day : Z; hour : Z; minute : Z; second : Z
}.

(** a character class of the expression *)
Inductive cls : Type :=
| Digit                       (* \d *)
| Range (lo hi : ascii)       (* [lo-hi] *)
| Lit (c : ascii)             (* a literal, matched without case *)
.

Definition lower (c : ascii) : ascii :=
  let n := nat_of_ascii c in
  if (65 <=? n)%nat && (n <=? 90)%nat then ascii_of_nat (n + 32) else c.

Definition cls_matches (k : cls) (c : ascii) : bool :=
  match k with
  | Digit => PyStr.is_digit c
  | Range lo hi =>
      (nat_of_ascii lo <=? nat_of_ascii c)%nat
      && (nat_of_ascii c <=? nat_of_ascii hi)%nat
  | Lit x => Ascii.eqb (lower x) (lower c)
  end.

(** match a sequence of classes at the head of the text: the matched
    characters and the rest *)
Fixpoint match_seq (ks : list cls) (s : list ascii)
  : option (list ascii * list ascii) :=
  match ks with
  | [] => Some ([], s)
  | k :: ks' =>
      match s with
      | c :: s' =>
          if cls_matches k c then
            match match_seq ks' s' with
            | Some (m, r) => Some (c :: m, r)
            | None => None
            end
          else None
      | [] => None
      end
  end.

(** alternatives, tried from left to right *)
Fixpoint match_alt (alts : list (list cls)) (s : list ascii)
  : option (list ascii * list ascii) :=
  match alts with
  | [] => None
  | a :: rest =>
      match match_seq a s with
      | Some r => Some r
      | None => match_alt rest s
      end
  end.

Definition rng (lo hi : string) : cls :=
  match lo, hi with
  | String a _, String b _ => Range a b
  | _, _ => Digit
  end.

(** the groups of [_strptime.TimeRE] *)
Definition re_Y : list (list cls) := [[Digit; Digit; Digit; Digit]].
Definition re_m : list (list cls) :=
  [[rng "1" "1"; rng "0" "2"]; [rng "0" "0"; rng "1" "9"]; [rng "1" "9"]].
Definition re_d : list (list cls) :=
  [[rng "3" "3"; rng "0" "1"]; [rng "1" "2"; Digit]; [rng "0" "0"; rng "1" "9"];
   [rng "1" "9"]; [rng " " " "; rng "1" "9"]].
Definition re_H : list (list cls) :=
  [[rng "2" "2"; rng "0" "3"]; [rng "0" "1"; Digit]; [Digit]].
Definition re_M : list (list cls) := [[rng "0" "5"; Digit]; [Digit]].
Definition re_S : list (list cls) :=
  [[rng "6" "6"; rng "0" "1"]; [rng "0" "5"; Digit]; [Digit]].
Definition re_lit (c : string) : list (list cls) :=
  match c with
  | String a _ => [[Lit a]]
  | EmptyString => [[]]
  end.

(** [int(text)] on a matched group: digits, after blanks *)
Fixpoint int_of (acc : Z) (l : list ascii) : Z :=
  match l with
  | [] => acc
  | c :: rest =>
      if PyStr.is_digit c then int_of (10 * acc + PyStr.digit_val c) rest
      else int_of acc rest
  end.

(** one group after the other; a group's value is [None] for a literal *)
Fixpoint match_groups (gs : list (list (list cls))) (s : list ascii)
  : option (list Z * list ascii) :=
  match gs with
  | [] => Some ([], s)
  | g :: gs' =>
      match match_alt g s with
      | Some (m, rest) =>
          match match_groups gs' rest with
          | Some (vs, rest') => Some (int_of 0 m :: vs, rest')
          | None => None
          end
      | None => None
      end
  end.

Definition is_leap (y : Z) : bool :=
  ((y mod 4 =? 0) && (negb (y mod 100 =? 0) || (y mod 400 =? 0)))%Z.

Definition days_in_month (y m : Z) : Z :=
  if (m =? 2)%Z then (if is_leap y then 29 else 28)%Z
  else if ((m =? 4) || (m =? 6) || (m =? 9) || (m =? 11))%Z then 30%Z
  else 31%Z.

(** the checks of the [date] and [datetime] constructors *)
Definition valid (dt : datetime) : bool :=
  ((1 <=? year dt) && (year dt <=? 9999)
   && (1 <=? month dt) && (month dt <=? 12)
   && (1 <=? day dt) && (day dt <=? days_in_month (year dt) (month dt))
   && (0 <=? hour dt) && (hour dt <=? 23)
   && (0 <=? minute dt) && (minute dt <=? 59)
   && (0 <=? second dt) && (second dt <=? 59))%Z.

Definition checked (dt : datetime) : option datetime :=
  if valid dt then Some dt else None.

(** [datetime.strptime(s, '%Y-%m-%d')] *)
Definition strptime_date (s : string) : option datetime :=
  match match_groups [re_Y; re_lit "-"; re_m; re_lit "-"; re_d]
          (PyStr.chars s) with
  | Some ([y; _; m; _; d], []) => checked (mk_datetime y m d 0 0 0)
  | _ => None
  end.

(** [datetime.strptime(s, '%Y-%m-%dT%H:%M:%S')] *)
Definition strptime_timestamp (s : string) : option datetime :=
  match match_groups
          [re_Y; re_lit "-"; re_m; re_lit "-"; re_d; re_lit "T";
           re_H; re_lit ":"; re_M; re_lit ":"; re_S]
          (PyStr.chars s) with
  | Some ([y; _; m; _; d; _; h; _; mi; _; se], []) =>
      checked (mk_datetime y m d h mi se)
  | _ => None
  end.

(** [%Y] as the platform's C library writes it: the library reference
    shows it zero-filled to four digits ([0001], ...), and so do some
    platforms; glibc writes the plain decimal, so year 999 is [999] *)
Definition year_text (zero_filled : bool) (y : Z) : string :=
  if zero_filled then PyStr.pad4 y else PyStr.of_int y.

(** [dt.strftime('%Y%m%d')] *)
Definition strftime_Ymd (zero_filled : bool) (dt : datetime) : string :=
  year_text zero_filled (year dt) +:+ PyStr.pad2 (month dt)
  +:+ PyStr.pad2 (day dt).

(** [dt.isoformat()] without fraction: the shape YYYY-MM-DDTHH:MM:SS *)
Definition isoformat (dt : datetime) : string :=
  PyStr.pad4 (year dt) +:+ "-" +:+ PyStr.pad2 (month dt) +:+ "-"
  +:+ PyStr.pad2 (day dt) +:+ "T" +:+ PyStr.pad2 (hour dt) +:+ ":"
  +:+ PyStr.pad2 (minute dt) +:+ ":" +:+ PyStr.pad2 (second dt).

End DateTime.

(** ** The environment

    What the program does not compute: the servers behind [requests], the
    file system's verdict on [open], [write] and [os.makedirs], the C
    library's way with [%Y], and the texts the interpreter produces
    ([repr] of containers, [json.dumps], the message of an error it raises
    itself).

    [open_wb path] tells whether [with open(path, 'wb') as f:
    f.write(data)] goes through.  When it does not, [torn_write path]
    tells what the attempt leaves: [None] when [open] itself refused, so
    nothing is touched; [Some n] when the file was opened, hence
    truncated, and the write then failed with the first [n] characters
    of the data on disk. *)

Record Request : Type := mk_request {
  req_method : string;
  req_url : string;
  req_headers : list (string * string);
  req_data : string
}.

(** a [requests.Response]: [json_body] is [None] when [response.json()]
    raises *)
Record Response : Type := mk_response {
  status_code : Z;
  text : string;
  content : string;
  json_body : option value
}.

Class World : Type := {
  Env : Type;
  send : Request -> Env -> outcome Response * Env;
  open_wb : string -> Env -> bool;
  torn_write : string -> Env -> option nat;
  makedirs_ok : string -> Env -> bool;
  year_zero_filled : bool;
  repr : value -> string;
  json_dumps : value -> string;
  describe : failure -> string
}.

Inductive level : Type := INFO | ERROR.

(** A reference to a dict object: the default value of [params] in
    [_send_request], created once with the function, or an object created
    by a dict display during the run. *)
Inductive ref : Type :=
| DefaultParams
| Obj (n : nat).

Section Program.

Context `{W : World}.

(** ** Program state: the outside world, the requests sent so far, the
    directories asked of [os.makedirs], what has been written under each
    path text given to [open] (the text as the program built it, not the
    file it resolves to: [a/../b] and [b] are different keys), the dict
    objects shared by reference (the default [params] object and those
    created during the run), and the log *)
Record State : Type := mk_state {
  env : Env;
  sent : list Request;
  dirs : gset string;
  files : gmap string string;
  params_default : dict;
  heap : list dict;
  log : list (level * string)
}.

Definition M (A : Type) : Type := State -> outcome A * State.

Definition ret {A} (a : A) : M A := fun s => (Ok a, s).

Definition raise {A} (e : exn) : M A := fun s => (Raise e, s).

Definition bind {A B} (m : M A) (k : A -> M B) : M B :=
  fun s =>
    match m s with
    | (Ok a, s') => k a s'
    | (Raise e, s') => (Raise e, s')
    end.

Definition lift {A} (o : outcome A) : M A := fun s => (o, s).

(** [try: m  except Exception as e: handler e] *)
Definition try_except {A} (m : M A) (handler : exn -> M A) : M A :=
  fun s =>
    match m s with
    | (Ok a, s') => (Ok a, s')
    | (Raise e, s') => handler e s'
    end.

Local Notation "x <- m ;; k" := (bind m (fun x => k))
  (at level 100, m at next level, right associativity).
Local Notation "m ;;; k" := (bind m (fun _ => k))
  (at level 100, right associativity).

(** [for x in xs: acc = body acc x] *)
Fixpoint for_each {A B} (xs : list A) (acc : B) (body : B -> A -> M B)
  : M B :=
  match xs with
  | [] => ret acc
  | x :: rest => acc' <- body acc x ;; for_each rest acc' body
  end.

Definition add_log (lv : level) (msg : string) (s : State) : State :=
  mk_state (env s) (sent s) (dirs s) (files s) (params_default s) (heap s)
    (log s ++ [(lv, msg)]).

Definition logging (lv : level) (msg : string) : M unit :=
  fun s => (Ok tt, add_log lv msg s).

Definition logging_info := logging INFO.
Definition logging_error := logging ERROR.

(** [str(v)], as an f-string or [format] renders a value *)
Definition str (v : value) : string :=
  match v with
  | VNone => "None"
  | VBool true => "True"
  | VBool false => "False"
  | VInt n => PyStr.of_int n
  | VStr s => s
  | VList _ | VDict _ => repr v
  end.

(** [str(e)] *)
Definition str_exn (e : exn) : string :=
  match e with
  | Exception msg => msg
  | Builtin f => describe f
  end.

(** *** dict objects *)

Definition load (p : ref) (s : State) : dict :=
  match p with
  | DefaultParams => params_default s
  | Obj n => default [] (heap s !! n)
  end.

Definition store (p : ref) (d : dict) (s : State) : State :=
  match p with
  | DefaultParams =>
      mk_state (env s) (sent s) (dirs s) (files s) d (heap s) (log s)
  | Obj n =>
      mk_state (env s) (sent s) (dirs s) (files s) (params_default s)
        (<[n := d]> (heap s)) (log s)
  end.

(** a dict display [{...}]: a new object *)
Definition alloc (d : dict) : M ref :=
  fun s =>
    (Ok (Obj (length (heap s))),
     mk_state (env s) (sent s) (dirs s) (files s) (params_default s)
       (heap s ++ [d]) (log s)).

Definition deref (p : ref) : M dict :=
  fun s => (Ok (load p s), s).

(** [params.pop(k, None)] on the object behind [p] *)
Definition dict_pop (p : ref) (k : string) : M unit :=
  fun s => (Ok tt, store p (PyVal.pop k (load p s)) s).

(** *** transport and files *)

Definition sent_to (rq : Request) (e' : Env) (s : State) : State :=
  mk_state e' (sent s ++ [rq]) (dirs s) (files s) (params_default s) (heap s)
    (log s).

Definition http (rq : Request) : M Response :=
  fun s => let '(o, e') := send rq (env s) in (o, sent_to rq e' s).

(** [requests.get(url)] *)
Definition requests_get (url : value) : M Response :=
  http (mk_request "GET" (str url) [] "").

(** [response.json()] *)
Definition response_json (rsp : Response) : M value :=
  match json_body rsp with
  | Some v => ret v
  | None => raise (Builtin (JSONDecodeError (text rsp)))
  end.

(** [os.makedirs(path, exist_ok=True)] *)
Definition os_makedirs (path : string) : M unit :=
  fun s =>
    if makedirs_ok path (env s) then
      (Ok tt, mk_state (env s) (sent s) ({[path]} ∪ dirs s) (files s)
                (params_default s) (heap s) (log s))
    else (Raise (Builtin (OSError path)), s).

(** the state with [data] in the file at [path] *)
Definition with_file (path data : string) (s : State) : State :=
  mk_state (env s) (sent s) (dirs s) (<[path := data]> (files s))
    (params_default s) (heap s) (log s).

(** [with open(path, 'wb') as f: f.write(data)]: the whole data, or an
    [OSError] that leaves the file untouched or torn *)
Definition write_file (path : string) (data : string) : M unit :=
  fun s =>
    if open_wb path (env s) then (Ok tt, with_file path data s)
    else
      match torn_write path (env s) with
      | None => (Raise (Builtin (OSError path)), s)
      | Some n =>
          (Raise (Builtin (OSError path)),
           with_file path (PyStr.of_chars (take n (PyStr.chars data))) s)
      end.

(** ** [class MyobClient] *)

Record MyobClient : Type := mk_client {
  client_id : string;
  access_token : string;
  session_headers : list (string * string);
  api_url : value
}.

(** [self.session.request(method, url, data=data)] *)
Definition session_request (self : MyobClient) (method url data : string)
  : M Response :=
  http (mk_request method url (session_headers self) data).

Definition MyobClient__init__ (client_id access_token : string)
  : M MyobClient :=
  let headers :=
    [("Authorization", "Bearer " +:+ access_token);
     ("x-myobapi-key", client_id);
     ("x-myobapi-version", "v2");
     ("Content-Type", "application/json")] in
  response <- http (mk_request "GET" "https://api.myob.com/accountright/"
                      headers "") ;;
  accounts <- response_json response ;;
  account <- lift (PyVal.first accounts) ;;
  uri <- lift (PyVal.subscript account "Uri") ;;
  logging_info ("Using API URL: " +:+ str uri) ;;;
  ret (mk_client client_id access_token headers uri).

(** the two halves of the query string and their junction *)
Definition filter_pairs (filters : dict) : string :=
  PyStr.join "&"
    (map (fun kv => "filters[" +:+ fst kv +:+ "]=" +:+ str (snd kv)) filters).

Definition plain_pairs (params : dict) : string :=
  PyStr.join "&" (map (fun kv => fst kv +:+ "=" +:+ str (snd kv)) params).

Definition query_string (filter_query_string non_filter_query_string : string)
  : string :=
  PyStr.strip "&"
    (PyStr.join "&" [filter_query_string; non_filter_query_string]).

Definition _send_request (self : MyobClient) (method url : string)
    (params : ref) (body : value) : M Response :=
  p <- deref params ;;
  filter_query_string <-
    (if PyVal.contains "filters" p then
       filters <- lift (PyVal.subscript (VDict p) "filters") ;;
       entries <- lift (PyVal.items filters) ;;
       ret (filter_pairs entries)
     else ret "") ;;
  dict_pop params "filters" ;;;
  p' <- deref params ;;
  let non_filter_query_string := plain_pairs p' in
  let query_string :=
    query_string filter_query_string non_filter_query_string in
  let message := url +:+ query_string in
  let body_str := if PyVal.truthy body then json_dumps body else "" in
  let message :=
    if PyVal.truthy body then message +:+ body_str else message in
  let url :=
    if negb (PyStr.is_empty query_string) then url +:+ "?" +:+ query_string
    else url in
  logging_info ("Making " +:+ method +:+ " request to: " +:+ url) ;;;
  response <- session_request self method url body_str ;;
  logging_info ("Response status code: "
                +:+ PyStr.of_int (status_code response)) ;;;
  (if negb (status_code response =? 200)%Z then
     logging_error ("Response text: " +:+ text response)
   else logging_info "Request successful") ;;;
  ret response.

(** the filter half of the query string, where [_send_request] can build
    it: empty without a [filters] entry, the pairs of a [filters] dict *)
Definition filter_half (params : dict) : option string :=
  match PyVal.lookup "filters" params with
  | None => Some ""
  | Some (VDict entries) => Some (filter_pairs entries)
  | Some _ => None
  end.

Definition get_invoices_between_dates (self : MyobClient)
    (start_date end_date : string) : M value :=
  let url := str (api_url self) +:+ "/Purchase/Bill" in
  params <- alloc
    [("$filter",
      VStr ("Date ge datetime'" +:+ start_date
            +:+ "T00:00:00' and Date le datetime'" +:+ end_date
            +:+ "T23:59:59'"));
     ("$orderby", VStr "Date desc")] ;;
  logging_info ("Searching for invoices between " +:+ start_date
                +:+ " and " +:+ end_date) ;;;
  response <- _send_request self "GET" url params (VDict []) ;;
  if negb (status_code response =? 200)%Z then
    logging_error "Failed to get invoices" ;;;
    ret (VList [])
  else
    data <- response_json response ;;
    invoices <- lift (PyVal.get data "Items" (VList [])) ;;
    n <- lift (PyVal.len invoices) ;;
    logging_info ("Found " +:+ PyStr.of_int n +:+ " invoices between "
                  +:+ start_date +:+ " and " +:+ end_date) ;;;
    ret invoices.

(** the request [get_invoices_between_dates] comes to send *)
Definition invoices_query (start_date end_date : string) : string :=
  "$filter=Date ge datetime'" +:+ start_date
  +:+ "T00:00:00' and Date le datetime'" +:+ end_date
  +:+ "T23:59:59'&$orderby=Date desc".

Definition invoices_request (self : MyobClient) (start_date end_date : string)
  : Request :=
  mk_request "GET"
    ((str (api_url self) +:+ "/Purchase/Bill") +:+ "?"
     +:+ invoices_query start_date end_date)
    (session_headers self) "".

Definition get_invoice_attachments (self : MyobClient) (invoice_uid : value)
  : M value :=
  logging_info ("Getting attachments for invoice UID: "
                +:+ str invoice_uid) ;;;
  let url := str (api_url self) +:+ "/Purchase/Bill/Service/"
             +:+ str invoice_uid +:+ "/Attachment" in
  response <- _send_request self "GET" url DefaultParams (VDict []) ;;
  if negb (status_code response =? 200)%Z then
    logging_error "Failed to get attachments" ;;;
    ret (VList [])
  else
    data <- response_json response ;;
    lift (PyVal.get data "Attachments" (VList [])).

Definition download_attachment (self : MyobClient) (file_uri : value)
    (save_path : string) : M unit :=
  logging_info ("Downloading attachment from: " +:+ str file_uri) ;;;
  response <- requests_get file_uri ;;
  if negb (status_code response =? 200)%Z then
    raise (Exception ("Failed to download attachment: " +:+ text response))
  else
    write_file save_path (content response) ;;;
    logging_info ("Successfully saved attachment to " +:+ save_path).

(** ** [main] *)

Record Args : Type := mk_args {
  myob_client_id : string;
  myob_access_token : string;
  start_date : string;
  end_date : string
}.

Record counters : Type := mk_counters {
  total_attachments : Z;
  downloaded_attachments : Z
}.

Definition output_dir : string := "invoice_pdfs".

(** [datetime.strptime(v, "%Y-%m-%dT%H:%M:%S")] on a value *)
Definition strptime_value (v : value) : outcome DateTime.datetime :=
  match v with
  | VStr s =>
      match DateTime.strptime_timestamp s with
      | Some dt => Ok dt
      | None =>
          Raise (Builtin (ValueError_time_data s "%Y-%m-%dT%H:%M:%S"))
      end
  | _ => Raise (Builtin (TypeError "strptime" v))
  end.

Definition file_name (invoice_date_str : string)
    (invoice_number original_filename : value) : string :=
  output_dir +:+ "/invoice_" +:+ invoice_date_str +:+ "_"
  +:+ str invoice_number +:+ "_" +:+ str original_filename.

(** the [try] block around one download and its handler *)
Definition guarded_download (client : MyobClient) (invoice_number : value)
    (file_uri : value) (file_name : string) (c : counters) : M counters :=
  try_except
    (download_attachment client file_uri file_name ;;;
     let c' := mk_counters (total_attachments c)
                 (downloaded_attachments c + 1) in
     logging_info ("Successfully downloaded: " +:+ file_name) ;;;
     ret c')
    (fun e =>
       logging_error ("Failed to download attachment for invoice "
                      +:+ str invoice_number +:+ ": " +:+ str_exn e) ;;;
       ret c).

(** the body of [for attachment in attachments] *)
Definition process_attachment (client : MyobClient)
    (invoice_number invoice_date : value) (c : counters)
    (attachment : value) : M counters :=
  file_uri <- lift (PyVal.get attachment "FileUri" VNone) ;;
  original_filename <-
    lift (PyVal.get attachment "OriginalFileName" (VStr "unknown.pdf")) ;;
  if PyVal.truthy file_uri then
    dt <- lift (strptime_value invoice_date) ;;
    let invoice_date_str := DateTime.strftime_Ymd year_zero_filled dt in
    let file_name :=
      file_name invoice_date_str invoice_number original_filename in
    guarded_download client invoice_number file_uri file_name c
  else
    logging_error ("No FileUri found in attachment data for invoice "
                   +:+ str invoice_number) ;;;
    ret c.

(** the request [download_attachment] sends for an attachment *)
Definition download_request (attachment : value) : Request :=
  mk_request "GET"
    (str (match PyVal.get attachment "FileUri" VNone with
          | Ok file_uri => file_uri
          | Raise _ => VNone
          end)) [] "".

(** the body of [for invoice in invoices] *)
Definition process_invoice (client : MyobClient) (c : counters)
    (invoice : value) : M counters :=
  invoice_number <- lift (PyVal.get invoice "Number" (VStr "unknown")) ;;
  invoice_date <- lift (PyVal.get invoice "Date" (VStr "unknown")) ;;
  invoice_uid <- lift (PyVal.subscript invoice "UID") ;;
  logging_info ("Processing invoice " +:+ str invoice_number +:+ " from "
                +:+ str invoice_date) ;;;
  attachments <- get_invoice_attachments client invoice_uid ;;
  if PyVal.truthy attachments then
    n <- lift (PyVal.len attachments) ;;
    let c := mk_counters (total_attachments c + n)
               (downloaded_attachments c) in
    logging_info ("Found " +:+ PyStr.of_int n
                  +:+ " attachments for invoice " +:+ str invoice_number) ;;;
    items <- lift (PyVal.iter attachments) ;;
    for_each items c (process_attachment client invoice_number invoice_date)
  else
    logging_info ("No attachments found for invoice "
                  +:+ str invoice_number) ;;;
    ret c.

Definition summary (c : counters) : string :=
  "Download complete. Found " +:+ PyStr.of_int (total_attachments c)
  +:+ " attachments, successfully downloaded "
  +:+ PyStr.of_int (downloaded_attachments c).

(** the [for] loop of [main] *)
Definition process_invoices (client : MyobClient) (invoices : value)
    (c : counters) : M counters :=
  items <- lift (PyVal.iter invoices) ;;
  for_each items c (process_invoice client).

(** the [try] block of [main] *)
Definition main_body (client : MyobClient) (args : Args) : M unit :=
  invoices <- get_invoices_between_dates client (start_date args)
                (end_date args) ;;
  c <- process_invoices client invoices (mk_counters 0 0) ;;
  logging_info (summary c).

Definition main (args : Args) : M unit :=
  match DateTime.strptime_date (start_date args),
        DateTime.strptime_date (end_date args) with
  | Some _, Some _ =>
      os_makedirs output_dir ;;;
      client <- MyobClient__init__ (myob_client_id args)
                  (myob_access_token args) ;;
      try_except (main_body client args)
        (fun e => logging_error ("Error: " +:+ str_exn e))
  | _, _ => logging_error "Dates must be in YYYY-MM-DD format"
  end.

End Program.

(** ** A scripted world

    The servers answer the requests in turn from a list of prepared
    answers and fail once the list is used up; every directory can be
    made and every path written; [%Y] is written as glibc writes it,
    without leading zeros.  It serves to run the program on concrete
    inputs. *)

Definition scripted_send (rq : Request) (script : list (outcome Response))
  : outcome Response * list (outcome Response) :=
  match script with
  | [] => (Raise (Builtin (RequestException (req_url rq))), [])
  | answer :: rest => (answer, rest)
  end.

Definition plain_describe (f : failure) : string :=
  match f with
  | AttributeError _ attr => "object has no attribute " +:+ attr
  | KeyError key => key
  | IndexError _ => "index out of range"
  | TypeError operation _ => "bad operand for " +:+ operation
  | ValueError_time_data data format =>
      "time data " +:+ data +:+ " does not match format " +:+ format
  | JSONDecodeError _ => "Expecting value"
  | RequestException detail => detail
  | OSError path => "cannot open " +:+ path
  end.

Definition scripted : World := {|
  Env := list (outcome Response);
  send := scripted_send;
  open_wb := fun _ _ => true;
  torn_write := fun _ _ => None;
  makedirs_ok := fun _ _ => true;
  year_zero_filled := false;
  repr := fun _ => "<container>";
  json_dumps := fun _ => "<json>";
  describe := plain_describe
|}.

Definition scripted_heap_state (script : list (outcome Response))
    (objects : list dict) : @State scripted :=
  @mk_state scripted script [] ∅ ∅ [] objects [].

Definition scripted_state (script : list (outcome Response))
  : @State scripted :=
  scripted_heap_state script [].

Definition json_response (status : Z) (body : string) (v : value) : Response :=
  mk_response status body body (Some v).

Definition file_response (status : Z) (body : string) : Response :=
  mk_response status body body None.

Definition demo_client : @MyobClient :=
  mk_client "id" "token" [("x-myobapi-key", "id")] (VStr "https://ar.example/f1").

Definition demo_args : Args := mk_args "id" "token" "2024-03-01" "2024-03-31".

Definition demo_invoice : value :=
  VDict [("UID", VStr "u1"); ("Number", VStr "INV-42");
         ("Date", VStr "2024-03-05T00:00:00")].

Definition demo_attachment : value :=
  VDict [("FileUri", VStr "https://files.example/a1");
         ("OriginalFileName", VStr "receipt.pdf")].

Definition undated_invoice : value :=
  VDict [("UID", VStr "u2"); ("Number", VStr "INV-43")].

Definition filtered_params : dict :=
  [("filters", VDict [("Status", VStr "Open")]); ("$top", VInt 5)].

Definition accounts_answer : outcome Response :=
  Ok (json_response 200 "[..]"
        (VList [VDict [("Uri", VStr "https://ar.example/f1")]])).

(** a run with one invoice and two attachments, the first of which cannot
    be fetched *)
Definition demo_script : list (outcome Response) :=
  [Ok (json_response 200 "{..}" (VDict [("Items", VList [demo_invoice])]));
   Ok (json_response 200 "{..}"
         (VDict [("Attachments", VList [demo_attachment; demo_attachment])]));
   Ok (file_response 404 "gone");
   Ok (file_response 200 "%PDF")].

(** a run whose first invoice has no date *)
Definition undated_script : list (outcome Response) :=
  [Ok (json_response 200 "{..}"
         (VDict [("Items", VList [undated_invoice; demo_invoice])]));
   Ok (json_response 200 "{..}"
         (VDict [("Attachments", VList [demo_attachment; demo_attachment])]));
   Ok (file_response 200 "%PDF")].

Definition error_handler : exn -> @M scripted unit :=
  fun e => @logging_error scripted ("Error: " +:+ @str_exn scripted e).

(** A world like the scripted one on a file system that refuses every
    directory and every file. *)
Definition readonly : World := {|
  Env := list (outcome Response);
  send := scripted_send;
  open_wb := fun _ _ => false;
  torn_write := fun _ _ => None;
  makedirs_ok := fun _ _ => false;
  year_zero_filled := false;
  repr := fun _ => "<container>";
  json_dumps := fun _ => "<json>";
  describe := plain_describe
|}.

Definition readonly_state (script : list (outcome Response))
  : @State readonly :=
  @mk_state readonly script [] ∅ ∅ [] [] [].

(** A world like the scripted one on a full disk: every file can be
    opened, and every write breaks off after two characters. *)
Definition full_disk : World := {|
  Env := list (outcome Response);
  send := scripted_send;
  open_wb := fun _ _ => false;
  torn_write := fun _ _ => Some 2;
  makedirs_ok := fun _ _ => true;
  year_zero_filled := false;
  repr := fun _ => "<container>";
  json_dumps := fun _ => "<json>";
  describe := plain_describe
|}.

Definition full_disk_state (script : list (outcome Response))
    (written : gmap string string) : @State full_disk :=
  @mk_state full_disk script [] ∅ written [] [] [].

(** an invoice of the year 999, and a run that downloads its attachment *)
Definition old_invoice : value :=
  VDict [("UID", VStr "u1"); ("Number", VStr "INV-42");
         ("Date", VStr "0999-01-05T00:00:00")].

Definition old_script : list (outcome Response) :=
  [Ok (json_response 200 "{..}" (VDict [("Items", VList [old_invoice])]));
   Ok (json_response 200 "{..}"
         (VDict [("Attachments", VList [demo_attachment])]));
   Ok (file_response 200 "%PDF")].

(** an invoice whose number, as the server gives it, climbs out of the
    output directory *)
Definition climbing_invoice : value :=
  VDict [("UID", VStr "u1"); ("Number", VStr "../../tmp/x");
         ("Date", VStr "2024-03-05T00:00:00")].

Definition climbing_script : list (outcome Response) :=
  [Ok (json_response 200 "{..}" (VDict [("Items", VList [climbing_invoice])]));
   Ok (json_response 200 "{..}"
         (VDict [("Attachments", VList [demo_attachment])]));
   Ok (file_response 200 "%PDF")].

(** ** Vocabulary for the properties of whole runs *)

Section Vocabulary.

Context `{W : World}.

(** the headers [__init__] puts on the session *)
Definition auth_headers (client_id access_token : string)
  : list (string * string) :=
  [("Authorization", "Bearer " +:+ access_token);
   ("x-myobapi-key", client_id);
   ("x-myobapi-version", "v2");
   ("Content-Type", "application/json")].

(** the request [__init__] comes to send *)
Definition discovery_request (client_id access_token : string) : Request :=
  mk_request "GET" "https://api.myob.com/accountright/"
    (auth_headers client_id access_token) "".

(** the request [get_invoice_attachments] comes to send when the default
    [params] object is empty *)
Definition attachments_request (self : MyobClient) (invoice_uid : value)
  : Request :=
  mk_request "GET"
    (str (api_url self) +:+ "/Purchase/Bill/Service/" +:+ str invoice_uid
     +:+ "/Attachment")
    (session_headers self) "".

(** [attachment.get("FileUri")] is there and true *)
Definition has_file_uri (attachment : value) : bool :=
  match PyVal.get attachment "FileUri" VNone with
  | Ok file_uri => PyVal.truthy file_uri
  | Raise _ => false
  end.

Definition is_dict (v : value) : bool :=
  match v with VDict _ => true | _ => false end.

(** what is left of the [try] block of [main] after one attachment: the
    attachments of the same invoice still to come, then the subsequent
    invoices, then the summary *)
Definition rest_of_run (client : MyobClient) (number date : value)
    (post after : list value) (c : counters) : M unit :=
  bind (for_each post c (process_attachment client number date))
    (fun c' =>
       bind (for_each after c' (process_invoice client))
         (fun c'' => logging_info (summary c''))).

(** the [try] block of [main], started in [s], comes to the attachment
    [att] of the invoice [inv] with the counters [c4] in the state [s4]:
    the listing returned the invoices [before], [inv], [after]; those
    before are processed; [number] and [date] are the invoice's [Number]
    and [Date]; its attachments were listed as [pre], [att], [post], and
    those before [att] are processed *)
Definition reaches (client : MyobClient) (args : Args) (s : State)
    (inv number date att : value) (post after : list value)
    (c4 : counters) (s4 : State) : Prop :=
  exists (invoices : value) (s1 : State) (before : list value)
         (c : counters) (s2 : State) (uid : value) (s3 : State)
         (pre : list value),
    get_invoices_between_dates client (start_date args) (end_date args) s
    = (Ok invoices, s1)
    /\ PyVal.iter invoices = Ok (before ++ inv :: after)
    /\ for_each before (mk_counters 0 0) (process_invoice client) s1
       = (Ok c, s2)
    /\ PyVal.get inv "Number" (VStr "unknown") = Ok number
    /\ PyVal.get inv "Date" (VStr "unknown") = Ok date
    /\ PyVal.subscript inv "UID" = Ok uid
    /\ get_invoice_attachments client uid
         (add_log INFO ("Processing invoice " +:+ str number +:+ " from "
                        +:+ str date) s2)
       = (Ok (VList (pre ++ att :: post)), s3)
    /\ for_each pre
         (mk_counters
            (total_attachments c + Z.of_nat (length (pre ++ att :: post)))
            (downloaded_attachments c))
         (process_attachment client number date)
         (add_log INFO
            ("Found "
             +:+ PyStr.of_int (Z.of_nat (length (pre ++ att :: post)))
             +:+ " attachments for invoice " +:+ str number) s3)
       = (Ok c4, s4).

(** requests by their headers: a download goes out under none, a call of
    the API under the session's *)
Definition is_download (rq : Request) : bool :=
  match req_headers rq with [] => true | _ => false end.

Definition downloads (rqs : list Request) : nat :=
  length (List.filter is_download rqs).

Definition api_calls (rqs : list Request) : nat :=
  length (List.filter (fun rq => negb (is_download rq)) rqs).


(** a computation keeps a relation between the state it starts in and the
    state it ends in, whether it returns or raises *)
Definition preserves {A} (R : State -> State -> Prop) (m : M A) : Prop :=
  forall s, R s (snd (m s)).

(** no file written, no directory made *)
Definition fs_untouched (s s' : State) : Prop :=
  files s' = files s /\ dirs s' = dirs s.

(** a [GET] without body, under the session's headers or under none *)
Definition plain_get (hs : list (string * string)) (rq : Request) : Prop :=
  req_method rq = "GET" /\ req_data rq = ""
  /\ (req_headers rq = hs \/ req_headers rq = []).

(** what a run may leave behind: files under the output directory with
    names starting [invoice_], the output directory, further requests, all
    of them plain [GET]s, further log lines, and a default [params] object
    still empty if it was *)
Definition footprint (hs : list (string * string)) (s s' : State) : Prop :=
  (forall path, String.prefix "invoice_pdfs/invoice_" path = false ->
                files s' !! path = files s !! path)
  /\ dirs s' ⊆ {[output_dir]} ∪ dirs s
  /\ (exists rqs, sent s' = sent s ++ rqs /\ Forall (plain_get hs) rqs)
  /\ (exists entries, log s' = log s ++ entries)
  /\ (params_default s = [] -> params_default s' = []).

End Vocabulary.

(** * Properties *)

(** ** Strings *)

Lemma chars_app (a b : string) :
  PyStr.chars (a +:+ b) = PyStr.chars a ++ PyStr.chars b.
Proof.
  unfold PyStr.chars. induction a as [|c a IH]; simpl; [reflexivity|].
  now rewrite IH.
Qed.

Lemma chars_of_chars (l : list ascii) : PyStr.chars (PyStr.of_chars l) = l.
Proof. apply list_ascii_of_string_of_list_ascii. Qed.

Lemma of_chars_chars (s : string) : PyStr.of_chars (PyStr.chars s) = s.
Proof. apply string_of_list_ascii_of_string. Qed.

Lemma lstrip_head (c : ascii) (l : list ascii) :
  match PyStr.lstrip_chars c l with
  | x :: _ => Ascii.eqb x c = false
  | [] => True
  end.
Proof.
  induction l as [|x l IH]; simpl; [exact I|].
  destruct (Ascii.eqb x c) eqn:E; [exact IH | exact E].
Qed.

Lemma lstrip_split (c : ascii) (l : list ascii) :
  exists k, l = repeat c k ++ PyStr.lstrip_chars c l.
Proof.
  induction l as [|x l [k IH]]; simpl.
  - now exists 0.
  - destruct (Ascii.eqb x c) eqn:E.
    + apply Ascii.eqb_eq in E. subst x. exists (S k). simpl. now f_equal.
    + now exists 0.
Qed.

Lemma rev_repeat {A} (x : A) (k : nat) : rev (repeat x k) = repeat x k.
Proof.
  induction k as [|k IH]; simpl; [reflexivity|].
  rewrite IH. clear IH. induction k as [|k IH]; simpl; [reflexivity|].
  now rewrite IH.
Qed.

Lemma rstrip_split (c : ascii) (l : list ascii) :
  exists k, l = PyStr.rstrip_chars c l ++ repeat c k.
Proof.
  unfold PyStr.rstrip_chars.
  destruct (lstrip_split c (rev l)) as [k Hk]. exists k.
  rewrite <- (rev_involutive l) at 1. rewrite Hk at 1.
  now rewrite rev_app_distr, rev_repeat.
Qed.

Lemma lstrip_snoc (c : ascii) (l : list ascii) :
  PyStr.lstrip_chars c (l ++ [c]) =
  match PyStr.lstrip_chars c l with
  | [] => []
  | m => m ++ [c]
  end.
Proof.
  induction l as [|x l IH]; simpl.
  - now rewrite Ascii.eqb_refl.
  - destruct (Ascii.eqb x c); [exact IH | reflexivity].
Qed.

Lemma rstrip_snoc (c : ascii) (l : list ascii) :
  PyStr.rstrip_chars c (l ++ [c]) = PyStr.rstrip_chars c l.
Proof.
  unfold PyStr.rstrip_chars. rewrite rev_app_distr. simpl.
  now rewrite Ascii.eqb_refl.
Qed.

Lemma rstrip_keeps (c x : ascii) (l : list ascii) :
  Ascii.eqb x c = false ->
  PyStr.rstrip_chars c (l ++ [x]) = l ++ [x].
Proof.
  intros E. unfold PyStr.rstrip_chars. rewrite rev_app_distr. simpl.
  rewrite E. simpl. now rewrite rev_involutive.
Qed.

Lemma strip_no_lead (c : ascii) (s : string) :
  PyStr.starts_with c (PyStr.strip c s) = false.
Proof.
  unfold PyStr.strip.
  pose proof (lstrip_head c (PyStr.chars s)) as Hh.
  destruct (rstrip_split c (PyStr.lstrip_chars c (PyStr.chars s))) as [k Hk].
  destruct (PyStr.rstrip_chars c (PyStr.lstrip_chars c (PyStr.chars s)))
    as [|x t]; [reflexivity|].
  rewrite Hk in Hh. simpl in *. exact Hh.
Qed.

Lemma strip_no_trail (c : ascii) (s : string) :
  PyStr.ends_with c (PyStr.strip c s) = false.
Proof.
  unfold PyStr.strip, PyStr.ends_with. rewrite chars_of_chars.
  unfold PyStr.rstrip_chars. rewrite rev_involutive.
  pose proof (lstrip_head c (rev (PyStr.lstrip_chars c (PyStr.chars s)))) as Hh.
  destruct (PyStr.lstrip_chars c (rev (PyStr.lstrip_chars c (PyStr.chars s))));
    [reflexivity | exact Hh].
Qed.

Lemma strip_left_empty (c : ascii) (s : string) :
  PyStr.strip c (String c s) = PyStr.strip c s.
Proof. unfold PyStr.strip. simpl. now rewrite Ascii.eqb_refl. Qed.

Lemma strip_right_empty (c : ascii) (s : string) :
  PyStr.strip c (s +:+ String c EmptyString) = PyStr.strip c s.
Proof.
  unfold PyStr.strip. rewrite chars_app. simpl. rewrite lstrip_snoc.
  destruct (PyStr.lstrip_chars c (PyStr.chars s)) as [|x t] eqn:E;
    [reflexivity|].
  now rewrite rstrip_snoc.
Qed.

Lemma append_assoc (a b c : string) : (a +:+ b) +:+ c = a +:+ (b +:+ c).
Proof.
  induction a as [|x a IH]; [reflexivity|].
  change (String x ((a +:+ b) +:+ c) = String x (a +:+ (b +:+ c))).
  f_equal. exact IH.
Qed.

Lemma strip_keeps (c x y : ascii) (m : list ascii) (s : string) :
  PyStr.chars s = x :: m ++ [y] ->
  Ascii.eqb x c = false -> Ascii.eqb y c = false ->
  PyStr.strip c s = s.
Proof.
  intros Hs Hx Hy. unfold PyStr.strip. rewrite Hs. simpl. rewrite Hx.
  rewrite app_comm_cons, rstrip_keeps by exact Hy.
  rewrite <- app_comm_cons, <- Hs. apply of_chars_chars.
Qed.

Lemma invoices_query_stripped (sd ed : string) :
  query_string "" (invoices_query sd ed) = invoices_query sd ed.
Proof.
  unfold query_string.
  change (PyStr.join "&" [""; invoices_query sd ed])
    with (String "&" (invoices_query sd ed)).
  rewrite strip_left_empty. unfold invoices_query.
  eapply (strip_keeps "&" "$" "c"
            (PyStr.chars "filter=Date ge datetime'" ++ PyStr.chars sd
             ++ PyStr.chars "T00:00:00' and Date le datetime'"
             ++ PyStr.chars ed
             ++ PyStr.chars "T23:59:59'&$orderby=Date des"));
    [|reflexivity|reflexivity].
  rewrite !chars_app. repeat first [rewrite <- app_assoc | progress simpl].
  reflexivity.
Qed.

(** ** Dates *)

Lemma digit_char_is_digit (d : Z) :
  (0 <= d <= 9)%Z ->
  PyStr.is_digit (PyStr.digit_char d) = true
  /\ PyStr.digit_val (PyStr.digit_char d) = d.
Proof.
  intros H.
  assert (E : exists k : nat, d = Z.of_nat k /\ (k < 10)%nat)
    by (exists (Z.to_nat d); lia).
  destruct E as (k & -> & Hk).
  do 10 (destruct k as [|k]; [now vm_compute|]). lia.
Qed.

Ltac divmod := Z.div_mod_to_equations; lia.

Ltac enum_range m lo n :=
  let k := fresh "k" in
  let Hk := fresh "Hk" in
  assert (Hk : exists k : nat, m = (lo + Z.of_nat k)%Z /\ (k < n)%nat)
    by (exists (Z.to_nat (m - lo)); lia);
  destruct Hk as (k & -> & Hk);
  repeat (destruct k as [|k]; [vm_compute; reflexivity|]); lia.

Lemma group_Y (y : Z) (rest : list ascii) :
  (0 <= y <= 9999)%Z ->
  DateTime.match_alt DateTime.re_Y (PyStr.chars (PyStr.pad4 y) ++ rest)
  = Some (PyStr.chars (PyStr.pad4 y), rest)
  /\ DateTime.int_of 0 (PyStr.chars (PyStr.pad4 y)) = y.
Proof.
  intros H. unfold PyStr.pad4. rewrite chars_of_chars.
  destruct (digit_char_is_digit (y / 1000)) as [A1 A2]; [divmod|].
  destruct (digit_char_is_digit (y / 100 mod 10)) as [B1 B2]; [divmod|].
  destruct (digit_char_is_digit (y / 10 mod 10)) as [C1 C2]; [divmod|].
  destruct (digit_char_is_digit (y mod 10)) as [D1 D2]; [divmod|].
  split.
  - unfold DateTime.re_Y.
    cbn [app DateTime.match_alt DateTime.match_seq DateTime.cls_matches].
    now rewrite A1, B1, C1, D1.
  - cbn [DateTime.int_of]. rewrite A1, A2. cbn [DateTime.int_of].
    rewrite B1, B2. cbn [DateTime.int_of]. rewrite C1, C2.
    cbn [DateTime.int_of]. rewrite D1, D2. divmod.
Qed.

Lemma group_m (m : Z) (rest : list ascii) :
  (1 <= m <= 12)%Z ->
  DateTime.match_alt DateTime.re_m (PyStr.chars (PyStr.pad2 m) ++ rest)
  = Some (PyStr.chars (PyStr.pad2 m), rest)
  /\ DateTime.int_of 0 (PyStr.chars (PyStr.pad2 m)) = m.
Proof. intros H. split; enum_range m 1%Z 12. Qed.

Lemma group_d (d : Z) (rest : list ascii) :
  (1 <= d <= 31)%Z ->
  DateTime.match_alt DateTime.re_d (PyStr.chars (PyStr.pad2 d) ++ rest)
  = Some (PyStr.chars (PyStr.pad2 d), rest)
  /\ DateTime.int_of 0 (PyStr.chars (PyStr.pad2 d)) = d.
Proof. intros H. split; enum_range d 1%Z 31. Qed.

Lemma group_H (h : Z) (rest : list ascii) :
  (0 <= h <= 23)%Z ->
  DateTime.match_alt DateTime.re_H (PyStr.chars (PyStr.pad2 h) ++ rest)
  = Some (PyStr.chars (PyStr.pad2 h), rest)
  /\ DateTime.int_of 0 (PyStr.chars (PyStr.pad2 h)) = h.
Proof. intros H. split; enum_range h 0%Z 24. Qed.

Lemma group_M (m : Z) (rest : list ascii) :
  (0 <= m <= 59)%Z ->
  DateTime.match_alt DateTime.re_M (PyStr.chars (PyStr.pad2 m) ++ rest)
  = Some (PyStr.chars (PyStr.pad2 m), rest)
  /\ DateTime.int_of 0 (PyStr.chars (PyStr.pad2 m)) = m.
Proof. intros H. split; enum_range m 0%Z 60. Qed.

Lemma group_S (x : Z) (rest : list ascii) :
  (0 <= x <= 59)%Z ->
  DateTime.match_alt DateTime.re_S (PyStr.chars (PyStr.pad2 x) ++ rest)
  = Some (PyStr.chars (PyStr.pad2 x), rest)
  /\ DateTime.int_of 0 (PyStr.chars (PyStr.pad2 x)) = x.
Proof. intros H. split; enum_range x 0%Z 60. Qed.

Lemma valid_bounds (dt : DateTime.datetime) :
  DateTime.valid dt = true ->
  (1 <= DateTime.year dt <= 9999 /\ 1 <= DateTime.month dt <= 12
   /\ 1 <= DateTime.day dt <= 31 /\ 0 <= DateTime.hour dt <= 23
   /\ 0 <= DateTime.minute dt <= 59 /\ 0 <= DateTime.second dt <= 59)%Z.
Proof.
  unfold DateTime.valid. rewrite !andb_true_iff, !Z.leb_le.
  intros H.
  assert (DateTime.days_in_month (DateTime.year dt) (DateTime.month dt) <= 31)%Z.
  { unfold DateTime.days_in_month.
    repeat match goal with |- context [if ?b then _ else _] => destruct b end;
      lia. }
  lia.
Qed.

Lemma strptime_valid (s : string) (dt : DateTime.datetime) :
  DateTime.strptime_timestamp s = Some dt -> DateTime.valid dt = true.
Proof.
  unfold DateTime.strptime_timestamp, DateTime.checked. intros H.
  repeat match type of H with
         | (if DateTime.valid ?d then _ else _) = _ =>
             destruct (DateTime.valid d) eqn:Hv; try discriminate
         | match ?x with _ => _ end = _ => destruct x; try discriminate
         end.
  now injection H as <-.
Qed.

(** a timestamp written YYYY-MM-DDTHH:MM:SS parses to its own fields *)
Lemma strptime_isoformat (dt : DateTime.datetime) :
  DateTime.valid dt = true ->
  DateTime.strptime_timestamp (DateTime.isoformat dt) = Some dt.
Proof.
  intros Hv. pose proof (valid_bounds dt Hv) as (Hy & Hm & Hd & Hh & Hmi & Hs).
  unfold DateTime.strptime_timestamp, DateTime.isoformat.
  rewrite !chars_app.
  change (PyStr.chars "-") with ["-"%char].
  change (PyStr.chars "T") with ["T"%char].
  change (PyStr.chars ":") with [":"%char].
  repeat match goal with
         | |- context [[?c] ++ ?l] => change ([c] ++ l) with (c :: l)
         end.
  cbn [DateTime.match_groups].
  destruct (group_Y (DateTime.year dt)
              ("-"%char :: PyStr.chars (PyStr.pad2 (DateTime.month dt)) ++
               "-"%char :: PyStr.chars (PyStr.pad2 (DateTime.day dt)) ++
               "T"%char :: PyStr.chars (PyStr.pad2 (DateTime.hour dt)) ++
               ":"%char :: PyStr.chars (PyStr.pad2 (DateTime.minute dt)) ++
               ":"%char :: PyStr.chars (PyStr.pad2 (DateTime.second dt))))
    as [-> ->]; [lia|].
  change (DateTime.match_alt (DateTime.re_lit "-") ("-"%char :: ?l))
    with (Some (["-"%char], l)).
  cbv iota beta.
  destruct (group_m (DateTime.month dt)
              ("-"%char :: PyStr.chars (PyStr.pad2 (DateTime.day dt)) ++
               "T"%char :: PyStr.chars (PyStr.pad2 (DateTime.hour dt)) ++
               ":"%char :: PyStr.chars (PyStr.pad2 (DateTime.minute dt)) ++
               ":"%char :: PyStr.chars (PyStr.pad2 (DateTime.second dt))))
    as [-> ->]; [lia|].
  change (DateTime.match_alt (DateTime.re_lit "-") ("-"%char :: ?l))
    with (Some (["-"%char], l)).
  cbv iota beta.
  destruct (group_d (DateTime.day dt)
              ("T"%char :: PyStr.chars (PyStr.pad2 (DateTime.hour dt)) ++
               ":"%char :: PyStr.chars (PyStr.pad2 (DateTime.minute dt)) ++
               ":"%char :: PyStr.chars (PyStr.pad2 (DateTime.second dt))))
    as [-> ->]; [lia|].
  change (DateTime.match_alt (DateTime.re_lit "T") ("T"%char :: ?l))
    with (Some (["T"%char], l)).
  cbv iota beta.
  destruct (group_H (DateTime.hour dt)
              (":"%char :: PyStr.chars (PyStr.pad2 (DateTime.minute dt)) ++
               ":"%char :: PyStr.chars (PyStr.pad2 (DateTime.second dt))))
    as [-> ->]; [lia|].
  change (DateTime.match_alt (DateTime.re_lit ":") (":"%char :: ?l))
    with (Some ([":"%char], l)).
  cbv iota beta.
  destruct (group_M (DateTime.minute dt)
              (":"%char :: PyStr.chars (PyStr.pad2 (DateTime.second dt))))
    as [-> ->]; [lia|].
  change (DateTime.match_alt (DateTime.re_lit ":") (":"%char :: ?l))
    with (Some ([":"%char], l)).
  cbv iota beta.
  rewrite <- (app_nil_r (PyStr.chars (PyStr.pad2 (DateTime.second dt)))) at 1.
  destruct (group_S (DateTime.second dt) []) as [-> ->]; [lia|].
  cbv iota beta. unfold DateTime.checked. destruct dt; simpl in *.
  now rewrite Hv.
Qed.

Lemma of_int_four_digits (y : Z) :
  (1000 <= y <= 9999)%Z -> PyStr.of_int y = PyStr.pad4 y.
Proof.
  intros Hy.
  assert (H : forallb
                (fun n => String.eqb (PyStr.of_int (1000 + Z.of_nat n))
                            (PyStr.pad4 (1000 + Z.of_nat n)))
                (seq 0 (Z.to_nat 9000)) = true) by (vm_compute; reflexivity).
  rewrite List.forallb_forall in H.
  specialize (H (Z.to_nat (y - 1000))).
  replace (1000 + Z.of_nat (Z.to_nat (y - 1000)))%Z with y in H by lia.
  apply String.eqb_eq, H, in_seq. lia.
Qed.

(** [%Y%m%d] of a date [datetime] accepts: eight decimal digits, where the
    year is zero-filled or has four digits of its own *)
Lemma strftime_Ymd_digits (zero_filled : bool) (dt : DateTime.datetime) :
  DateTime.valid dt = true ->
  zero_filled = true \/ (1000 <= DateTime.year dt)%Z ->
  DateTime.strftime_Ymd zero_filled dt
  = PyStr.pad4 (DateTime.year dt) +:+ PyStr.pad2 (DateTime.month dt)
    +:+ PyStr.pad2 (DateTime.day dt)
  /\ String.length (DateTime.strftime_Ymd zero_filled dt) = 8
  /\ Forall (fun c => PyStr.is_digit c = true)
       (PyStr.chars (DateTime.strftime_Ymd zero_filled dt)).
Proof.
  intros Hv Hz. pose proof (valid_bounds dt Hv) as (Hy & Hm & Hd & _).
  assert (E : DateTime.strftime_Ymd zero_filled dt
              = PyStr.pad4 (DateTime.year dt)
                +:+ PyStr.pad2 (DateTime.month dt)
                +:+ PyStr.pad2 (DateTime.day dt)).
  { unfold DateTime.strftime_Ymd, DateTime.year_text.
    destruct zero_filled; [reflexivity|].
    rewrite of_int_four_digits; [reflexivity|].
    destruct Hz as [Hz|Hz]; [discriminate | lia]. }
  split; [exact E|]. rewrite E. unfold PyStr.pad4, PyStr.pad2. split.
  - reflexivity.
  - rewrite !chars_app, !chars_of_chars. simpl.
    repeat constructor; apply digit_char_is_digit; divmod.
Qed.

(** ** Dictionaries *)

Lemma lookup_pop_same (k : string) (d : dict) :
  PyVal.lookup k (PyVal.pop k d) = None.
Proof.
  induction d as [|[k' v] d IH]; simpl; [reflexivity|].
  destruct (String.eqb k' k) eqn:E; [exact IH|]. simpl. now rewrite E.
Qed.

Lemma lookup_pop_other (k j : string) (d : dict) :
  j <> k -> PyVal.lookup j (PyVal.pop k d) = PyVal.lookup j d.
Proof.
  intros Hne. induction d as [|[k' v] d IH]; simpl; [reflexivity|].
  destruct (String.eqb k' k) eqn:E.
  - apply String.eqb_eq in E. subst k'.
    destruct (String.eqb k j) eqn:E'; [|exact IH].
    apply String.eqb_eq in E'. congruence.
  - simpl. now rewrite IH.
Qed.

Lemma pop_absent (k : string) (d : dict) :
  PyVal.lookup k d = None -> PyVal.pop k d = d.
Proof.
  induction d as [|[k' v] d IH]; simpl; [reflexivity|].
  destruct (String.eqb k' k); [discriminate|].
  intros H. now rewrite IH.
Qed.

Section Claims.

Context `{W : World}.

(** ** References *)

Lemma load_store_same (p : ref) (k : string) (s : State) :
  load p (store p (PyVal.pop k (load p s)) s) = PyVal.pop k (load p s).
Proof.
  destruct p as [|n]; simpl; [reflexivity|].
  destruct (heap s !! n) as [d|] eqn:E; simpl.
  - rewrite list_lookup_insert_eq; [reflexivity|].
    now apply lookup_lt_Some in E.
  - rewrite list_insert_ge; [now rewrite E|].
    now apply lookup_ge_None in E.
Qed.

Ltac unfold_m :=
  unfold response_json, session_request, requests_get, http, write_file,
    deref, dict_pop, logging_info, logging_error, logging, try_except, bind,
    ret, raise, lift in *.


(** C6.  When the fetch of [download_attachment] returns a response, the
    operation raises [Exception("Failed to download attachment: " +
    response.text)] exactly when the status is not 200, and then leaves
    the files alone; on status 200, where the path can be opened, it
    returns normally and the file at the destination path holds the
    whole [response.content], whatever was there before, all other files
    being untouched. *)
Theorem C6_download_attachment (self : MyobClient) (file_uri : value)
    (save_path : string) (s : State) (rsp : Response) (e' : Env) :
  send (mk_request "GET" (str file_uri) [] "") (env s) = (Ok rsp, e') ->
  let r := download_attachment self file_uri save_path s in
  (fst r = Raise (Exception ("Failed to download attachment: " +:+ text rsp))
   <-> status_code rsp <> 200%Z)
  /\ (status_code rsp <> 200%Z -> files (snd r) = files s)
  /\ (status_code rsp = 200%Z -> open_wb save_path e' = true ->
      fst r = Ok tt
      /\ files (snd r) = <[save_path := content rsp]> (files s)).
Proof.
  intros Hsend. unfold download_attachment. unfold_m. simpl. rewrite Hsend.
  destruct (status_code rsp =? 200)%Z eqn:E; simpl.
  - apply Z.eqb_eq in E.
    destruct (open_wb save_path e') eqn:O;
      [|destruct (torn_write save_path e')]; simpl;
      (split; [split; [discriminate | congruence] |]);
      (split; [congruence |]); intros _ HO;
      [now split | discriminate | discriminate].
  - apply Z.eqb_neq in E. split; [now split|]. split; [reflexivity|].
    congruence.
Qed.

Lemma load_add_log (p : ref) (lv : level) (msg : string) (s : State) :
  load p (add_log lv msg s) = load p s.
Proof. now destruct p. Qed.

Lemma load_sent_to (p : ref) (rq : Request) (e' : Env) (s : State) :
  load p (sent_to rq e' s) = load p s.
Proof. now destruct p. Qed.

Lemma load_store_other (p p' : ref) (d : dict) (s : State) :
  p' <> p -> load p' (store p d s) = load p' s.
Proof.
  intros Hne. destruct p as [|n], p' as [|m]; simpl; try reflexivity;
    try congruence.
  rewrite list_lookup_insert_ne; [reflexivity | congruence].
Qed.

(** ** The request primitive, step by step *)

Lemma send_request_run (self : MyobClient) (method url : string) (p : ref)
    (body : value) (s : State) (f : string) :
  filter_half (load p s) = Some f ->
  let d' := PyVal.pop "filters" (load p s) in
  let q := query_string f (plain_pairs d') in
  let u := if negb (PyStr.is_empty q) then url +:+ "?" +:+ q else url in
  let rq := mk_request method u (session_headers self)
              (if PyVal.truthy body then json_dumps body else "") in
  let s1 := add_log INFO ("Making " +:+ method +:+ " request to: " +:+ u)
              (store p d' s) in
  _send_request self method url p body s =
  match send rq (env s) with
  | (Ok rsp, e') =>
      (Ok rsp,
       add_log (if negb (status_code rsp =? 200)%Z then ERROR else INFO)
         (if negb (status_code rsp =? 200)%Z
          then "Response text: " +:+ text rsp else "Request successful")
         (add_log INFO
            ("Response status code: " +:+ PyStr.of_int (status_code rsp))
            (sent_to rq e' s1)))
  | (Raise e, e') => (Raise e, sent_to rq e' s1)
  end.
Proof.
  intros Hf. unfold _send_request, filter_half, PyVal.contains in *.
  unfold_m. cbv zeta.
  assert (Hs1 : forall d, env (store p d s) = env s)
    by (intros; now destruct p).
  destruct (PyVal.lookup "filters" (load p s)) as [v|] eqn:L.
  - destruct v; try discriminate. injection Hf as <-.
    simpl. rewrite L. simpl. rewrite load_store_same. simpl.
    rewrite Hs1.
    destruct (send _ (env s)) as [[rsp|e] e']; [|reflexivity].
    now destruct (status_code rsp =? 200)%Z.
  - injection Hf as <-. simpl. rewrite load_store_same. rewrite Hs1.
    destruct (send _ (env s)) as [[rsp|e] e']; [|reflexivity].
    now destruct (status_code rsp =? 200)%Z.
Qed.

Lemma invoices_params_pairs (sd ed : string) :
  plain_pairs
    [("$filter",
      VStr ("Date ge datetime'" +:+ sd
            +:+ "T00:00:00' and Date le datetime'" +:+ ed +:+ "T23:59:59'"));
     ("$orderby", VStr "Date desc")]
  = invoices_query sd ed.
Proof.
  unfold plain_pairs, invoices_query. simpl. rewrite !append_assoc.
  reflexivity.
Qed.

Lemma get_invoices_run (self : MyobClient) (sd ed : string) (s : State) :
  exists s1 : State,
    env s1 = env s /\ sent s1 = sent s /\
    get_invoices_between_dates self sd ed s =
    match send (invoices_request self sd ed) (env s) with
    | (Raise e, e') => (Raise e, sent_to (invoices_request self sd ed) e' s1)
    | (Ok rsp, e') =>
        let s2 :=
          add_log (if negb (status_code rsp =? 200)%Z then ERROR else INFO)
            (if negb (status_code rsp =? 200)%Z
             then "Response text: " +:+ text rsp else "Request successful")
            (add_log INFO
               ("Response status code: " +:+ PyStr.of_int (status_code rsp))
               (sent_to (invoices_request self sd ed) e' s1)) in
        if negb (status_code rsp =? 200)%Z then
          (Ok (VList []), add_log ERROR "Failed to get invoices" s2)
        else
          match json_body rsp with
          | None => (Raise (Builtin (JSONDecodeError (text rsp))), s2)
          | Some data =>
              match PyVal.get data "Items" (VList []) with
              | Raise e => (Raise e, s2)
              | Ok invoices =>
                  match PyVal.len invoices with
                  | Raise e => (Raise e, s2)
                  | Ok n =>
                      (Ok invoices,
                       add_log INFO
                         ("Found " +:+ PyStr.of_int n
                          +:+ " invoices between " +:+ sd +:+ " and " +:+ ed)
                         s2)
                  end
              end
          end
    end.
Proof.
  unfold get_invoices_between_dates.
  set (d := [("$filter", _); ("$orderby", _)]).
  set (s0 := add_log INFO ("Searching for invoices between " +:+ sd
                           +:+ " and " +:+ ed)
               (mk_state (env s) (sent s) (dirs s) (files s)
                  (params_default s) (heap s ++ [d]) (log s))).
  assert (Hload : load (Obj (length (heap s))) s0 = d).
  { simpl. rewrite lookup_app_r by lia. now rewrite Nat.sub_diag. }
  assert (Hf : filter_half (load (Obj (length (heap s))) s0) = Some "")
    by now rewrite Hload.
  pose proof (send_request_run self "GET"
                (str (api_url self) +:+ "/Purchase/Bill")
                (Obj (length (heap s))) (VDict []) s0 _ Hf) as R.
  cbv zeta in R. rewrite Hload in R.
  change (PyVal.pop "filters" d) with d in R.
  assert (Hq : query_string "" (plain_pairs d) = invoices_query sd ed).
  { unfold d. rewrite invoices_params_pairs. apply invoices_query_stripped. }
  rewrite !Hq in R.
  change (negb (PyStr.is_empty (invoices_query sd ed))) with true in R.
  change (PyVal.truthy (VDict [])) with false in R. cbv iota in R.
  change (mk_request "GET" _ (session_headers self) "")
    with (invoices_request self sd ed) in R.
  change (env s0) with (env s) in R.
  eexists. split; [|split]; cycle 2.
  - unfold bind at 1. unfold alloc at 1. unfold bind at 1.
    unfold logging_info at 1, logging at 1. fold s0.
    unfold bind at 1. rewrite R.
    destruct (send (invoices_request self sd ed) (env s)) as [[rsp|e] e'];
      [|reflexivity].
    cbv zeta. destruct (negb (status_code rsp =? 200)%Z) eqn:E.
    + reflexivity.
    + unfold_m. destruct (json_body rsp) as [data|]; [|reflexivity].
      destruct (PyVal.get data "Items" (VList [])) as [invoices|e];
        [|reflexivity].
      now destruct (PyVal.len invoices).
  - reflexivity.
  - reflexivity.
Qed.

(** C5.  With the response the listing request receives:
    on a status other than 200, [get_invoices_between_dates] returns the
    empty list without raising and its last log line is the error
    [Failed to get invoices]; on status 200, with a JSON object as body,
    it returns the list under [Items], and the empty list when the object
    has no [Items]. *)
Theorem C5_get_invoices (self : MyobClient) (sd ed : string) (s : State)
    (rsp : Response) (e' : Env) :
  send (invoices_request self sd ed) (env s) = (Ok rsp, e') ->
  let r := get_invoices_between_dates self sd ed s in
  (status_code rsp <> 200%Z ->
   fst r = Ok (VList [])
   /\ last (log (snd r)) = Some (ERROR, "Failed to get invoices"))
  /\ (status_code rsp = 200%Z ->
      forall d, json_body rsp = Some (VDict d) ->
      (PyVal.lookup "Items" d = None -> fst r = Ok (VList []))
      /\ (forall l, PyVal.lookup "Items" d = Some (VList l) ->
          fst r = Ok (VList l))).
Proof.
  intros Hsend. destruct (get_invoices_run self sd ed s) as (s1 & _ & _ & R).
  cbv zeta. rewrite R, Hsend. cbv zeta. clear R. split.
  - intros Hst. apply Z.eqb_neq in Hst. rewrite Hst. simpl.
    split; [reflexivity | apply last_snoc].
  - intros Hst d Hd. rewrite Hst, Hd. simpl. split.
    + now intros ->.
    + now intros l ->.
Qed.

(** C2, as the code has it.  The two halves are joined with ["&"] and the
    result is stripped of leading and trailing ["&"]: the query string
    never starts or ends with ["&"]; when the filter half is empty it is
    the plain half stripped, when the plain half is empty it is the
    filter half stripped.  The request [_send_request] sends goes to the
    URL followed by ["?"] and that query string, or to the URL alone when
    the query string is empty. *)
Theorem C2_query_string_stripped (f nf : string) :
  PyStr.starts_with "&" (query_string f nf) = false
  /\ PyStr.ends_with "&" (query_string f nf) = false
  /\ (f = "" -> query_string f nf = PyStr.strip "&" nf)
  /\ (nf = "" -> query_string f nf = PyStr.strip "&" f)
  /\ (forall self method url p body s,
      filter_half (load p s) = Some f ->
      nf = plain_pairs (PyVal.pop "filters" (load p s)) ->
      exists rq,
        sent (snd (_send_request self method url p body s)) = sent s ++ [rq]
        /\ req_url rq
           = if PyStr.is_empty (query_string f nf) then url
             else url +:+ "?" +:+ query_string f nf).
Proof.
  unfold query_string. split; [apply strip_no_lead|].
  split; [apply strip_no_trail|]. split; [|split].
  - intros ->. simpl. apply strip_left_empty.
  - intros ->. simpl. apply strip_right_empty.
  - intros self method url p body s Hf ->.
    rewrite (send_request_run self method url p body s f Hf). cbv zeta.
    fold (query_string f (plain_pairs (PyVal.pop "filters" (load p s)))).
    assert (Hsent : forall d, sent (store p d s) = sent s)
      by (intros; now destruct p).
    eexists. split.
    + destruct (send _ (env s)) as [[rsp|e] e']; simpl; now rewrite Hsent.
    + simpl.
      now destruct (PyStr.is_empty
                      (query_string f
                         (plain_pairs (PyVal.pop "filters" (load p s))))).
Qed.

(** C10.  A call of [_send_request] whose [params] object holds a
    [filters] dict removes that entry from the very object the caller
    passed: after the call, however it ends, the object has no [filters],
    every other key holds what it held, and every other dict object is
    unchanged. *)
Theorem C10_filters_popped_in_place (self : MyobClient) (method url : string)
    (p : ref) (body : value) (s : State) (entries : dict) :
  PyVal.lookup "filters" (load p s) = Some (VDict entries) ->
  let s' := snd (_send_request self method url p body s) in
  load p s' = PyVal.pop "filters" (load p s)
  /\ PyVal.lookup "filters" (load p s') = None
  /\ (forall k, k <> "filters" ->
      PyVal.lookup k (load p s') = PyVal.lookup k (load p s))
  /\ (forall p', p' <> p -> load p' s' = load p' s).
Proof.
  intros L.
  assert (Hf : filter_half (load p s) = Some (filter_pairs entries))
    by (unfold filter_half; now rewrite L).
  assert (G : forall p',
             load p' (snd (_send_request self method url p body s))
             = load p' (store p (PyVal.pop "filters" (load p s)) s)).
  { intros p'. rewrite (send_request_run self method url p body s _ Hf).
    cbv zeta. destruct (send _ (env s)) as [[rsp|e] e']; simpl snd;
      now rewrite ?load_add_log, ?load_sent_to, ?load_add_log. }
  cbv zeta. rewrite G, load_store_same.
  split; [reflexivity|]. split; [apply lookup_pop_same|].
  split; [intros k Hk; now apply lookup_pop_other|].
  intros p' Hp. rewrite G. now apply load_store_other.
Qed.

(** ** The driver, step by step *)

Lemma bind_run {A B} (m : M A) (k : A -> M B) (s : State) :
  bind m k s = match m s with
               | (Ok a, s') => k a s'
               | (Raise e, s') => (Raise e, s')
               end.
Proof. reflexivity. Qed.

Lemma for_each_app {A B} (xs ys : list A) (acc : B) (body : B -> A -> M B)
    (s : State) :
  for_each (xs ++ ys) acc body s
  = bind (for_each xs acc body) (fun acc' => for_each ys acc' body) s.
Proof.
  revert acc s. induction xs as [|x xs IH]; intros acc s; [reflexivity|].
  simpl. rewrite !bind_run. destruct (body acc x s) as [[acc'|e] s1].
  - rewrite IH. reflexivity.
  - reflexivity.
Qed.

Lemma get_of_dict (v : value) (k : string) (dflt x : value) :
  PyVal.get v k dflt = Ok x -> exists d, v = VDict d.
Proof. destruct v; try discriminate. intros _. now eexists. Qed.

Lemma process_attachment_run (client : MyobClient)
    (number date att uri original : value) (c : counters) (s : State) :
  PyVal.get att "FileUri" VNone = Ok uri ->
  PyVal.get att "OriginalFileName" (VStr "unknown.pdf") = Ok original ->
  process_attachment client number date c att s =
  if PyVal.truthy uri then
    match strptime_value date with
    | Ok dt =>
        guarded_download client number uri
          (file_name (DateTime.strftime_Ymd year_zero_filled dt) number
             original) c s
    | Raise e => (Raise e, s)
    end
  else
    (Ok c, add_log ERROR ("No FileUri found in attachment data for invoice "
                          +:+ str number) s).
Proof.
  intros Hu Ho. unfold process_attachment. rewrite Hu, Ho. unfold_m.
  destruct (PyVal.truthy uri); [|reflexivity].
  now destruct (strptime_value date).
Qed.

Lemma download_attachment_run (self : MyobClient) (file_uri : value)
    (save_path : string) (s : State) :
  download_attachment self file_uri save_path s =
  let s0 := add_log INFO ("Downloading attachment from: " +:+ str file_uri) s in
  let rq := mk_request "GET" (str file_uri) [] "" in
  match send rq (env s) with
  | (Raise e, e') => (Raise e, sent_to rq e' s0)
  | (Ok rsp, e') =>
      if negb (status_code rsp =? 200)%Z then
        (Raise (Exception ("Failed to download attachment: " +:+ text rsp)),
         sent_to rq e' s0)
      else if open_wb save_path e' then
        (Ok tt,
         add_log INFO ("Successfully saved attachment to " +:+ save_path)
           (with_file save_path (content rsp) (sent_to rq e' s0)))
      else
        (Raise (Builtin (OSError save_path)),
         match torn_write save_path e' with
         | None => sent_to rq e' s0
         | Some n =>
             with_file save_path
               (PyStr.of_chars (take n (PyStr.chars (content rsp))))
               (sent_to rq e' s0)
         end)
  end.
Proof.
  unfold download_attachment. unfold_m. simpl.
  destruct (send _ (env s)) as [[rsp|e] e']; [|reflexivity].
  destruct (negb (status_code rsp =? 200)%Z); [reflexivity|]. simpl.
  destruct (open_wb save_path e'); [reflexivity|].
  now destruct (torn_write save_path e').
Qed.

Lemma guarded_download_run (client : MyobClient) (number uri : value)
    (path : string) (c : counters) (s : State) :
  guarded_download client number uri path c s =
  match download_attachment client uri path s with
  | (Ok _, s1) =>
      (Ok (mk_counters (total_attachments c) (downloaded_attachments c + 1)),
       add_log INFO ("Successfully downloaded: " +:+ path) s1)
  | (Raise e, s1) =>
      (Ok c,
       add_log ERROR ("Failed to download attachment for invoice "
                      +:+ str number +:+ ": " +:+ str_exn e) s1)
  end.
Proof.
  unfold guarded_download. unfold_m.
  now destruct (download_attachment client uri path s) as [[[]|e] s1].
Qed.



Lemma chars_length (x : string) : length (PyStr.chars x) = String.length x.
Proof.
  unfold PyStr.chars. induction x as [|a x IH]; simpl; [reflexivity|].
  now rewrite IH.
Qed.

Lemma len_iter (v : value) (n : Z) (items : list value) :
  PyVal.len v = Ok n -> PyVal.iter v = Ok items -> n = Z.of_nat (length items).
Proof.
  destruct v; simpl; try discriminate; intros Hn Hi;
    injection Hn as <-; injection Hi as <-.
  - now rewrite length_map, chars_length.
  - reflexivity.
  - now rewrite length_map.
Qed.

Lemma process_attachment_counts (client : MyobClient) (number date : value)
    (c : counters) (att : value) (s : State) (c' : counters) (s' : State) :
  process_attachment client number date c att s = (Ok c', s') ->
  total_attachments c' = total_attachments c
  /\ (downloaded_attachments c <= downloaded_attachments c'
      <= downloaded_attachments c + 1)%Z.
Proof.
  destruct (PyVal.get att "FileUri" VNone) as [uri|e] eqn:Hu.
  - destruct (get_of_dict _ _ _ _ Hu) as [d ->].
    rewrite (process_attachment_run _ _ _ _ uri
               (match PyVal.lookup "OriginalFileName" d with
                | Some x => x | None => VStr "unknown.pdf" end)
               _ _ Hu eq_refl).
    destruct (PyVal.truthy uri).
    + destruct (strptime_value date); [|discriminate].
      rewrite guarded_download_run.
      destruct (download_attachment _ _ _ s) as [[[]|e] s1];
        intros H; injection H as <- <-; simpl; lia.
    + intros H; injection H as <- <-. lia.
  - unfold process_attachment. rewrite Hu. discriminate.
Qed.

Lemma attachments_loop_counts (client : MyobClient) (number date : value)
    (atts : list value) (c : counters) (s : State) (c' : counters)
    (s' : State) :
  for_each atts c (process_attachment client number date) s = (Ok c', s') ->
  total_attachments c' = total_attachments c
  /\ (downloaded_attachments c <= downloaded_attachments c'
      <= downloaded_attachments c + Z.of_nat (length atts))%Z.
Proof.
  revert c s. induction atts as [|att atts IH]; intros c s.
  - simpl. intros H; injection H as <- <-. lia.
  - simpl for_each. rewrite bind_run.
    destruct (process_attachment client number date c att s)
      as [[c1|e] s1] eqn:E; [|discriminate].
    intros H. apply IH in H. apply process_attachment_counts in E.
    simpl length. lia.
Qed.

Lemma process_invoice_run (client : MyobClient) (c : counters)
    (inv number date uid : value) (s : State) :
  PyVal.get inv "Number" (VStr "unknown") = Ok number ->
  PyVal.get inv "Date" (VStr "unknown") = Ok date ->
  PyVal.subscript inv "UID" = Ok uid ->
  process_invoice client c inv s =
  match get_invoice_attachments client uid
          (add_log INFO ("Processing invoice " +:+ str number +:+ " from "
                         +:+ str date) s) with
  | (Raise e, s1) => (Raise e, s1)
  | (Ok attachments, s1) =>
      if PyVal.truthy attachments then
        match PyVal.len attachments with
        | Raise e => (Raise e, s1)
        | Ok n =>
            let s2 := add_log INFO ("Found " +:+ PyStr.of_int n
                                    +:+ " attachments for invoice "
                                    +:+ str number) s1 in
            match PyVal.iter attachments with
            | Raise e => (Raise e, s2)
            | Ok items =>
                for_each items
                  (mk_counters (total_attachments c + n)
                     (downloaded_attachments c))
                  (process_attachment client number date) s2
            end
        end
      else
        (Ok c, add_log INFO ("No attachments found for invoice "
                             +:+ str number) s1)
  end.
Proof.
  intros Hn Hd Hu. unfold process_invoice. rewrite Hn, Hd, Hu.
  unfold logging_info, logging, lift. rewrite !bind_run.
  destruct (get_invoice_attachments client uid _) as [[attachments|e] s1];
    [|reflexivity].
  destruct (PyVal.truthy attachments); [|reflexivity].
  rewrite bind_run. destruct (PyVal.len attachments) as [n|e]; [|reflexivity].
  rewrite !bind_run.
  now destruct (PyVal.iter attachments).
Qed.

Lemma process_invoice_raises (client : MyobClient) (c : counters)
    (inv : value) (s : State) (c' : counters) (s' : State) :
  process_invoice client c inv s = (Ok c', s') ->
  exists number date uid,
    PyVal.get inv "Number" (VStr "unknown") = Ok number
    /\ PyVal.get inv "Date" (VStr "unknown") = Ok date
    /\ PyVal.subscript inv "UID" = Ok uid.
Proof.
  unfold process_invoice, lift. rewrite bind_run.
  destruct (PyVal.get inv "Number" (VStr "unknown")) as [number|e];
    [|discriminate].
  rewrite bind_run.
  destruct (PyVal.get inv "Date" (VStr "unknown")) as [date|e];
    [|discriminate].
  rewrite bind_run.
  destruct (PyVal.subscript inv "UID") as [uid|e]; [|discriminate].
  intros _. now exists number, date, uid.
Qed.

Lemma process_invoice_counts (client : MyobClient) (c : counters)
    (inv : value) (s : State) (c' : counters) (s' : State) :
  process_invoice client c inv s = (Ok c', s') ->
  (downloaded_attachments c <= downloaded_attachments c'
   /\ downloaded_attachments c' - downloaded_attachments c
      <= total_attachments c' - total_attachments c)%Z.
Proof.
  intros H.
  destruct (process_invoice_raises _ _ _ _ _ _ H)
    as (number & date & uid & Hn & Hd & Hu).
  rewrite (process_invoice_run _ _ _ _ _ _ _ Hn Hd Hu) in H.
  destruct (get_invoice_attachments client uid _) as [[attachments|e] s1];
    [|discriminate].
  destruct (PyVal.truthy attachments).
  - destruct (PyVal.len attachments) as [n|e] eqn:Hl; [|discriminate].
    cbv zeta in H.
    destruct (PyVal.iter attachments) as [items|e] eqn:Hi; [|discriminate].
    apply attachments_loop_counts in H. simpl in H.
    pose proof (len_iter _ _ _ Hl Hi). lia.
  - injection H as <- <-. lia.
Qed.

Lemma invoices_loop_counts (client : MyobClient) (invs : list value)
    (c : counters) (s : State) (c' : counters) (s' : State) :
  for_each invs c (process_invoice client) s = (Ok c', s') ->
  (downloaded_attachments c <= downloaded_attachments c'
   /\ downloaded_attachments c' - downloaded_attachments c
      <= total_attachments c' - total_attachments c)%Z.
Proof.
  revert c s. induction invs as [|inv invs IH]; intros c s.
  - simpl. intros H; injection H as <- <-. lia.
  - simpl for_each. rewrite bind_run.
    destruct (process_invoice client c inv s) as [[c1|e] s1] eqn:E;
      [|discriminate].
    intros H. apply IH in H. apply process_invoice_counts in E. lia.
Qed.

(** C8.  The downloaded count never exceeds the total count: the loop
    over any list of invoices, so over every prefix of the invoices of a
    run, keeps [downloaded <= total]; within an invoice, once the total
    has grown by the number of its attachments, the loop over any part of
    them keeps it too; and the summary that [main] logs when its [try]
    block completes is that of counters with [0 <= downloaded <= total]. *)
Theorem C8_downloaded_le_total (client : MyobClient) :
  (forall invoices c s c' s',
      process_invoices client invoices c s = (Ok c', s') ->
      (downloaded_attachments c <= total_attachments c)%Z ->
      (downloaded_attachments c' <= total_attachments c')%Z)
  /\ (forall number date atts c s c' s',
      for_each atts c (process_attachment client number date) s
      = (Ok c', s') ->
      (downloaded_attachments c + Z.of_nat (length atts)
       <= total_attachments c)%Z ->
      (downloaded_attachments c' <= total_attachments c')%Z)
  /\ (forall args s s',
      main_body client args s = (Ok tt, s') ->
      exists c,
        last (log s') = Some (INFO, summary c)
        /\ (0 <= downloaded_attachments c <= total_attachments c)%Z).
Proof.
  split; [|split].
  - intros invoices c s c' s'. unfold process_invoices, lift.
    rewrite bind_run. destruct (PyVal.iter invoices) as [items|e];
      [|discriminate].
    intros H. apply invoices_loop_counts in H. lia.
  - intros number date atts c s c' s' H.
    apply attachments_loop_counts in H. lia.
  - intros args s s'. unfold main_body. rewrite bind_run.
    destruct (get_invoices_between_dates client _ _ s) as [[invoices|e] s1];
      [|discriminate].
    rewrite bind_run. unfold process_invoices at 1, lift. rewrite bind_run.
    destruct (PyVal.iter invoices) as [items|e]; [|discriminate].
    destruct (for_each items _ _ s1) as [[c|e] s2] eqn:E; [|discriminate].
    unfold logging_info, logging. intros H. injection H as <-.
    exists c. split; [apply last_snoc|].
    apply invoices_loop_counts in E. simpl in E. lia.
Qed.

(** C9.  Take a run whose listing returned invoices, the ones before a
    given invoice having been processed; the attachments of that invoice
    are a list in which, the earlier ones having been processed, stands
    an attachment with a file URI; and the invoice's date, absent (so
    ["unknown"]) or not, does not parse.  Then the loop body raises at
    the file-name step, before the guarded download: nothing is logged by
    it, nothing requested; the error leaves both loops, the handler of
    [main] logs it and the run ends there, the remaining attachments and
    the subsequent invoices untouched.  An invoice without [Date] is such
    an invoice. *)
Theorem C9_bad_date_ends_run (client : MyobClient) (args : Args)
    (s s1 s2 s3 s4 : State) (invoices inv number date uid att uri : value)
    (before after pre post : list value) (c c4 : counters) (e : exn) :
  get_invoices_between_dates client (start_date args) (end_date args) s
  = (Ok invoices, s1) ->
  PyVal.iter invoices = Ok (before ++ inv :: after) ->
  for_each before (mk_counters 0 0) (process_invoice client) s1
  = (Ok c, s2) ->
  PyVal.get inv "Number" (VStr "unknown") = Ok number ->
  PyVal.get inv "Date" (VStr "unknown") = Ok date ->
  PyVal.subscript inv "UID" = Ok uid ->
  get_invoice_attachments client uid
    (add_log INFO ("Processing invoice " +:+ str number +:+ " from "
                   +:+ str date) s2)
  = (Ok (VList (pre ++ att :: post)), s3) ->
  for_each pre
    (mk_counters
       (total_attachments c + Z.of_nat (length (pre ++ att :: post)))
       (downloaded_attachments c))
    (process_attachment client number date)
    (add_log INFO ("Found "
                   +:+ PyStr.of_int (Z.of_nat (length (pre ++ att :: post)))
                   +:+ " attachments for invoice " +:+ str number) s3)
  = (Ok c4, s4) ->
  PyVal.get att "FileUri" VNone = Ok uri ->
  PyVal.truthy uri = true ->
  strptime_value date = Raise e ->
  process_attachment client number date c4 att s4 = (Raise e, s4)
  /\ process_invoices client invoices (mk_counters 0 0) s1 = (Raise e, s4)
  /\ try_except (main_body client args)
       (fun e => logging_error ("Error: " +:+ str_exn e)) s
     = (Ok tt, add_log ERROR ("Error: " +:+ str_exn e) s4)
  /\ (forall d, PyVal.lookup "Date" d = None ->
      exists e0,
        PyVal.get (VDict d) "Date" (VStr "unknown") = Ok (VStr "unknown")
        /\ strptime_value (VStr "unknown") = Raise e0).
Proof.
  intros Hlist Hiter Hbefore Hn Hd Hu Hatts Hpre Hf Ht Hbad.
  assert (Hatt : process_attachment client number date c4 att s4
                 = (Raise e, s4)).
  { destruct (get_of_dict _ _ _ _ Hf) as [d ->].
    rewrite (process_attachment_run _ _ _ _ uri
               (match PyVal.lookup "OriginalFileName" d with
                | Some x => x | None => VStr "unknown.pdf" end)
               _ _ Hf eq_refl).
    now rewrite Ht, Hbad. }
  assert (Hinv : process_invoice client c inv s2 = (Raise e, s4)).
  { rewrite (process_invoice_run _ _ _ _ _ _ _ Hn Hd Hu), Hatts.
    assert (Htr : PyVal.truthy (VList (pre ++ att :: post)) = true)
      by now destruct pre.
    rewrite Htr. cbn [PyVal.len PyVal.iter]. cbv zeta.
    rewrite for_each_app, bind_run, Hpre. simpl for_each.
    now rewrite bind_run, Hatt. }
  assert (Hloop : process_invoices client invoices (mk_counters 0 0) s1
                  = (Raise e, s4)).
  { unfold process_invoices, lift. rewrite bind_run, Hiter.
    rewrite for_each_app, bind_run, Hbefore. simpl for_each.
    now rewrite bind_run, Hinv. }
  split; [exact Hatt|]. split; [exact Hloop|]. split.
  - unfold try_except, main_body. rewrite bind_run, Hlist, bind_run, Hloop.
    reflexivity.
  - intros d Hnone. eexists. simpl. rewrite Hnone. split; reflexivity.
Qed.

(** ** A run, taken at one attachment *)

Lemma main_body_at_attachment (client : MyobClient) (args : Args)
    (s : State) (inv number date att : value) (post after : list value)
    (c4 : counters) (s4 : State) :
  reaches client args s inv number date att post after c4 s4 ->
  main_body client args s
  = bind (process_attachment client number date c4 att)
      (rest_of_run client number date post after) s4.
Proof.
  intros (invoices & s1 & before & c & s2 & uid & s3 & pre
          & Hlist & Hiter & Hbefore & Hn & Hd & Hu & Hatts & Hpre).
  assert (Htr : PyVal.truthy (VList (pre ++ att :: post)) = true)
    by now destruct pre.
  unfold main_body. rewrite bind_run, Hlist, bind_run.
  unfold process_invoices at 1, lift. rewrite bind_run, Hiter.
  rewrite for_each_app, bind_run, Hbefore. simpl for_each.
  rewrite bind_run, (process_invoice_run _ _ _ _ _ _ _ Hn Hd Hu), Hatts, Htr.
  cbn [PyVal.len PyVal.iter]. cbv zeta.
  rewrite for_each_app, bind_run, Hpre. simpl for_each.
  unfold rest_of_run. rewrite !bind_run.
  destruct (process_attachment client number date c4 att s4)
    as [[c5|e] s5]; [|reflexivity].
  rewrite !bind_run.
  destruct (for_each post c5 _ s5) as [[c6|e] s6]; [|reflexivity].
  rewrite !bind_run. reflexivity.
Qed.

Lemma strptime_value_valid (date : value) (dt : DateTime.datetime) :
  strptime_value date = Ok dt -> DateTime.valid dt = true.
Proof.
  unfold strptime_value. destruct date; try discriminate.
  destruct (DateTime.strptime_timestamp s) as [dt'|] eqn:E; [|discriminate].
  intros H. injection H as <-. exact (strptime_valid _ _ E).
Qed.

Lemma string_length_app (a b : string) :
  String.length (a +:+ b) = String.length a + String.length b.
Proof. induction a as [|ch a IH]; simpl; [reflexivity | now rewrite IH]. Qed.

Lemma of_int_short (y : Z) :
  (0 <= y < 1000)%Z -> String.length (PyStr.of_int y) < 4.
Proof.
  intros Hy.
  assert (H : forallb
                (fun n => Nat.ltb (String.length (PyStr.of_int (Z.of_nat n))) 4)
                (seq 0 (Z.to_nat 1000)) = true) by (vm_compute; reflexivity).
  rewrite List.forallb_forall in H.
  specialize (H (Z.to_nat y)).
  replace (Z.of_nat (Z.to_nat y)) with y in H by lia.
  apply Nat.ltb_lt, H, in_seq. lia.
Qed.

(** C1.  Take a run of the [try] block of [main] at an attachment with a
    file URI, of an invoice whose date parses as [%Y-%m-%dT%H:%M:%S].
    What the run does next is the guarded download to the path
    [invoice_pdfs/invoice_<date>_<number>_<original name>], with the
    number of that invoice and the original file name of that attachment,
    where <date> is [%Y%m%d] of the parsed date of that invoice: the year
    as the platform writes it, then month and day on two digits each.
    From the year 1000 on, or where the platform fills the year with
    zeros, these are eight decimal digits, and for a date written
    YYYY-MM-DDTHH:MM:SS they are its YYYY, MM and DD; before the year
    1000 on a platform that does not fill, they are fewer than eight.
    When the download succeeds the payload is the file at that path. *)
Theorem C1_file_name (client : MyobClient) (args : Args) (s : State)
    (inv number date att uri original : value) (post after : list value)
    (c4 : counters) (s4 : State) (dt : DateTime.datetime) :
  reaches client args s inv number date att post after c4 s4 ->
  PyVal.get att "FileUri" VNone = Ok uri ->
  PyVal.truthy uri = true ->
  PyVal.get att "OriginalFileName" (VStr "unknown.pdf") = Ok original ->
  strptime_value date = Ok dt ->
  let ymd := DateTime.strftime_Ymd year_zero_filled dt in
  let path := "invoice_pdfs/invoice_" +:+ ymd +:+ "_" +:+ str number
              +:+ "_" +:+ str original in
  main_body client args s
  = bind (guarded_download client number uri path c4)
      (rest_of_run client number date post after) s4
  /\ ymd = DateTime.year_text year_zero_filled (DateTime.year dt)
           +:+ PyStr.pad2 (DateTime.month dt)
           +:+ PyStr.pad2 (DateTime.day dt)
  /\ (year_zero_filled = true \/ (1000 <= DateTime.year dt)%Z ->
      String.length ymd = 8
      /\ Forall (fun ch => PyStr.is_digit ch = true) (PyStr.chars ymd)
      /\ (forall dt0, DateTime.valid dt0 = true ->
          date = VStr (DateTime.isoformat dt0) ->
          ymd = PyStr.pad4 (DateTime.year dt0)
                +:+ PyStr.pad2 (DateTime.month dt0)
                +:+ PyStr.pad2 (DateTime.day dt0)))
  /\ (year_zero_filled = false -> (DateTime.year dt < 1000)%Z ->
      String.length ymd < 8)
  /\ (forall rsp e',
      send (mk_request "GET" (str uri) [] "") (env s4) = (Ok rsp, e') ->
      status_code rsp = 200%Z -> open_wb path e' = true ->
      files (snd (guarded_download client number uri path c4 s4)) !! path
      = Some (content rsp)).
Proof.
  intros Hreach Hu Ht Ho Hd. cbv zeta.
  pose proof (strptime_value_valid _ _ Hd) as Hv.
  split; [|split; [reflexivity|split; [|split]]].
  - rewrite (main_body_at_attachment _ _ _ _ _ _ _ _ _ _ _ Hreach).
    rewrite !bind_run.
    rewrite (process_attachment_run _ _ _ _ _ _ _ _ Hu Ho), Ht, Hd.
    reflexivity.
  - intros Hz.
    destruct (strftime_Ymd_digits year_zero_filled dt Hv Hz)
      as (E & Hlen & Hdig).
    split; [exact Hlen|]. split; [exact Hdig|].
    intros dt0 Hv0 ->. unfold strptime_value in Hd.
    rewrite (strptime_isoformat dt0 Hv0) in Hd. injection Hd as <-.
    exact E.
  - intros Hz Hy. pose proof (valid_bounds dt Hv) as (Hy' & _).
    unfold DateTime.strftime_Ymd, DateTime.year_text. rewrite Hz.
    rewrite !string_length_app.
    pose proof (of_int_short (DateTime.year dt)) as Hs.
    change (String.length (PyStr.pad2 (DateTime.month dt))) with 2.
    change (String.length (PyStr.pad2 (DateTime.day dt))) with 2.
    lia.
  - intros rsp e' Hsend Hst Hopen. rewrite guarded_download_run.
    rewrite download_attachment_run. cbv zeta. rewrite Hsend, Hst, Hopen.
    simpl. apply lookup_insert_eq.
Qed.

(** ** The loop over the attachments of an invoice *)

Lemma process_attachment_dict (client : MyobClient) (number date : value)
    (dt : DateTime.datetime) (c : counters) (a : dict) (s : State) :
  strptime_value date = Ok dt ->
  exists c' s',
    process_attachment client number date c (VDict a) s = (Ok c', s')
    /\ total_attachments c' = total_attachments c
    /\ sent s' = sent s ++ (if has_file_uri (VDict a)
                            then [download_request (VDict a)] else []).
Proof.
  intros Hd.
  rewrite (process_attachment_run client number date (VDict a)
             (match PyVal.lookup "FileUri" a with
              | Some x => x | None => VNone end)
             (match PyVal.lookup "OriginalFileName" a with
              | Some x => x | None => VStr "unknown.pdf" end)
             c s eq_refl eq_refl).
  unfold has_file_uri, download_request. simpl PyVal.get. cbv iota.
  destruct (PyVal.truthy _).
  - rewrite Hd, guarded_download_run, download_attachment_run. cbv zeta.
    destruct (send _ (env s)) as [[rsp|e] e'].
    + destruct (negb (status_code rsp =? 200)%Z);
        [do 2 eexists; repeat split; reflexivity|].
      destruct (open_wb _ e'); [|destruct (torn_write _ e')];
        do 2 eexists; repeat split; reflexivity.
    + do 2 eexists. repeat split; reflexivity.
  - do 2 eexists. split; [reflexivity|]. split; [reflexivity|].
    simpl. now rewrite app_nil_r.
Qed.

Lemma attachments_loop_dicts (client : MyobClient) (number date : value)
    (dt : DateTime.datetime) (atts : list value) (c : counters)
    (s : State) :
  strptime_value date = Ok dt ->
  forallb is_dict atts = true ->
  exists c' s',
    for_each atts c (process_attachment client number date) s = (Ok c', s')
    /\ sent s' = sent s ++ map download_request (List.filter has_file_uri atts).
Proof.
  intros Hd. revert c s. induction atts as [|att atts IH]; intros c s Hall.
  - exists c, s. simpl. now rewrite app_nil_r.
  - simpl in Hall. apply andb_true_iff in Hall as [Ha Hall].
    destruct att; try discriminate.
    destruct (process_attachment_dict client number date dt c entries s Hd)
      as (c1 & s1 & E1 & _ & S1).
    destruct (IH c1 s1 Hall) as (c' & s' & E & S).
    exists c', s'. simpl for_each. rewrite bind_run, E1.
    split; [exact E|].
    rewrite S, S1. cbn [List.filter].
    destruct (has_file_uri (VDict entries)); simpl.
    + now rewrite <- app_assoc.
    + now rewrite app_nil_r.
Qed.

(** C3.  Take a run of the [try] block of [main] at an attachment with a
    file URI, of an invoice whose date parses, and let the download of
    that attachment raise, whatever the error.  The handler logs the
    error for that invoice and the loop body returns normally with the
    counters as they were; from there the run is what is left of it: the
    loop over the remaining attachments of the invoice, then the loop
    over the subsequent invoices, then the summary.  When the remaining
    attachments are objects, their loop returns normally and has
    requested each one that has a file URI, in order, and the run goes
    on with the subsequent invoices.  The guarded download never raises. *)
Theorem C3_download_failure_isolated (client : MyobClient) (args : Args)
    (s : State) (inv number date att uri original : value)
    (post after : list value) (c4 : counters) (s4 s5 : State)
    (dt : DateTime.datetime) (e : exn) :
  reaches client args s inv number date att post after c4 s4 ->
  PyVal.get att "FileUri" VNone = Ok uri ->
  PyVal.truthy uri = true ->
  PyVal.get att "OriginalFileName" (VStr "unknown.pdf") = Ok original ->
  strptime_value date = Ok dt ->
  download_attachment client uri
    (file_name (DateTime.strftime_Ymd year_zero_filled dt) number original)
    s4
  = (Raise e, s5) ->
  let s6 := add_log ERROR ("Failed to download attachment for invoice "
                           +:+ str number +:+ ": " +:+ str_exn e) s5 in
  process_attachment client number date c4 att s4 = (Ok c4, s6)
  /\ main_body client args s
     = rest_of_run client number date post after c4 s6
  /\ (forallb is_dict post = true ->
      exists c7 s7,
        for_each post c4 (process_attachment client number date) s6
        = (Ok c7, s7)
        /\ sent s7
           = sent s6 ++ map download_request (List.filter has_file_uri post)
        /\ main_body client args s
           = bind (for_each after c7 (process_invoice client))
               (fun c8 => logging_info (summary c8)) s7)
  /\ (forall number' uri' path c0 s0,
      exists c' s', guarded_download client number' uri' path c0 s0
                    = (Ok c', s')).
Proof.
  intros Hreach Hu Ht Ho Hd Hdl. cbv zeta.
  assert (Hrun : process_attachment client number date c4 att s4
                 = (Ok c4, add_log ERROR
                             ("Failed to download attachment for invoice "
                              +:+ str number +:+ ": " +:+ str_exn e) s5)).
  { rewrite (process_attachment_run _ _ _ _ _ _ _ _ Hu Ho), Ht, Hd.
    now rewrite guarded_download_run, Hdl. }
  assert (Hmain : main_body client args s
                  = rest_of_run client number date post after c4
                      (add_log ERROR
                         ("Failed to download attachment for invoice "
                          +:+ str number +:+ ": " +:+ str_exn e) s5)).
  { rewrite (main_body_at_attachment _ _ _ _ _ _ _ _ _ _ _ Hreach).
    now rewrite bind_run, Hrun. }
  split; [exact Hrun|]. split; [exact Hmain|]. split.
  - intros Hpost.
    destruct (attachments_loop_dicts client number date dt post c4
                (add_log ERROR
                   ("Failed to download attachment for invoice "
                    +:+ str number +:+ ": " +:+ str_exn e) s5) Hd Hpost)
      as (c7 & s7 & E & S).
    exists c7, s7. split; [exact E|]. split; [exact S|].
    rewrite Hmain. unfold rest_of_run. now rewrite bind_run, E.
  - intros number' uri' path c0 s0. rewrite guarded_download_run.
    destruct (download_attachment client uri' path s0) as [[[]|e0] s0'];
      eauto.
Qed.

(** ** The requests of a run, counted *)













End Claims.

(** * The program on concrete inputs *)

Example demo_run :
  map req_url (sent (snd (@main scripted demo_args
                            (scripted_state (accounts_answer :: demo_script)))))
  = ["https://api.myob.com/accountright/";
     "https://ar.example/f1/Purchase/Bill?$filter=Date ge datetime'2024-03-01T00:00:00' and Date le datetime'2024-03-31T23:59:59'&$orderby=Date desc";
     "https://ar.example/f1/Purchase/Bill/Service/u1/Attachment";
     "https://files.example/a1"; "https://files.example/a1"]
  /\ last (log (snd (@main scripted demo_args
                       (scripted_state (accounts_answer :: demo_script)))))
     = Some (INFO, "Download complete. Found 2 attachments, successfully downloaded 1").
Proof. split; vm_compute; reflexivity. Qed.

(** The example of the specification: date 2024-03-05T00:00:00, number
    INV-42, original name receipt.pdf, at the first attachment of the run
    of [demo_script]. *)
Lemma C1_file_name_witness :
  exists c4 s4,
    @main_body scripted demo_client demo_args (scripted_state demo_script)
    = @bind scripted _ _
        (@guarded_download scripted demo_client (VStr "INV-42")
           (VStr "https://files.example/a1")
           "invoice_pdfs/invoice_20240305_INV-42_receipt.pdf" c4)
        (@rest_of_run scripted demo_client (VStr "INV-42")
           (VStr "2024-03-05T00:00:00") [demo_attachment] [])
        s4.
Proof.
  do 2 eexists.
  refine (proj1 (@C1_file_name scripted demo_client demo_args
                   (scripted_state demo_script) demo_invoice (VStr "INV-42")
                   (VStr "2024-03-05T00:00:00") demo_attachment
                   (VStr "https://files.example/a1") (VStr "receipt.pdf")
                   [demo_attachment] [] _ _
                   (DateTime.mk_datetime 2024 3 5 0 0 0)
                   _ eq_refl eq_refl eq_refl eq_refl)).
  unfold reaches.
  eexists. eexists. exists []. eexists. eexists. eexists. eexists. exists [].
  split; [vm_compute; reflexivity|]. split; [reflexivity|].
  split; [reflexivity|]. split; [reflexivity|]. split; [reflexivity|].
  split; [reflexivity|]. split; [vm_compute; reflexivity|]. reflexivity.
Defined.

(** An invoice dated 0999-01-05T00:00:00, where [%Y] is written without
    leading zeros: the date part of the file name is [9990105], seven
    digits, and the run writes the attachment under that name. *)
Lemma C1_counterexample :
  let s' := snd (@main_body scripted demo_client demo_args
                   (scripted_state old_script)) in
  strptime_value (VStr "0999-01-05T00:00:00")
  = Ok (DateTime.mk_datetime 999 1 5 0 0 0)
  /\ DateTime.strftime_Ymd (@year_zero_filled scripted)
       (DateTime.mk_datetime 999 1 5 0 0 0)
     = "9990105"
  /\ String.length "9990105" <> 8
  /\ files s' !! "invoice_pdfs/invoice_9990105_INV-42_receipt.pdf"
     = Some "%PDF"
  /\ files s' !! "invoice_pdfs/invoice_09990105_INV-42_receipt.pdf" = None.
Proof.
  cbv zeta. split; [vm_compute; reflexivity|].
  split; [vm_compute; reflexivity|]. split; [discriminate|].
  split; vm_compute; reflexivity.
Qed.

(** The listing request of the program has an empty filter half and a
    plain half that is not empty; its query string neither starts nor ends
    with ["&"]. *)
Lemma C2_counterexample :
  let nf := @plain_pairs scripted
              [("$filter", VStr "Date ge datetime'2024-03-01T00:00:00' and Date le datetime'2024-03-31T23:59:59'");
               ("$orderby", VStr "Date desc")] in
  PyStr.is_empty "" = true
  /\ PyStr.is_empty nf = false
  /\ ~ (PyStr.starts_with "&" (query_string "" nf) = true
        \/ PyStr.ends_with "&" (query_string "" nf) = true)
  /\ map req_url
       (sent (snd (@get_invoices_between_dates scripted demo_client
                     "2024-03-01" "2024-03-31" (scripted_state demo_script))))
     = ["https://ar.example/f1/Purchase/Bill?" +:+ query_string "" nf].
Proof.
  cbv zeta. split; [reflexivity|]. split; [reflexivity|]. split.
  - intros [H|H]; vm_compute in H; discriminate.
  - vm_compute. reflexivity.
Qed.

Lemma C2_query_string_stripped_witness :
  query_string "" "$orderby=Date desc" = PyStr.strip "&" "$orderby=Date desc".
Proof.
  exact (proj1 (proj2 (proj2
           (@C2_query_string_stripped scripted "" "$orderby=Date desc")))
           eq_refl).
Defined.

(** The run of [demo_script]: the first download is answered 404; the
    error is logged and the run goes on with the second attachment. *)
Lemma C3_download_failure_isolated_witness :
  exists s6,
    @main_body scripted demo_client demo_args (scripted_state demo_script)
    = @rest_of_run scripted demo_client (VStr "INV-42")
        (VStr "2024-03-05T00:00:00") [demo_attachment] [] (mk_counters 2 0)
        s6
    /\ last (log s6)
       = Some (ERROR,
               "Failed to download attachment for invoice INV-42: Failed to download attachment: gone").
Proof.
  eexists. split.
  - refine (proj1 (proj2
              (@C3_download_failure_isolated scripted demo_client demo_args
                 (scripted_state demo_script) demo_invoice (VStr "INV-42")
                 (VStr "2024-03-05T00:00:00") demo_attachment
                 (VStr "https://files.example/a1") (VStr "receipt.pdf")
                 [demo_attachment] [] (mk_counters 2 0) _ _
                 (DateTime.mk_datetime 2024 3 5 0 0 0) _
                 _ eq_refl eq_refl eq_refl eq_refl _))).
    + unfold reaches.
      eexists. eexists. exists []. eexists. eexists. eexists. eexists.
      exists [].
      split; [vm_compute; reflexivity|]. split; [reflexivity|].
      split; [reflexivity|]. split; [reflexivity|]. split; [reflexivity|].
      split; [reflexivity|]. split; [vm_compute; reflexivity|]. reflexivity.
    + vm_compute. reflexivity.
  - vm_compute. reflexivity.
Defined.


Lemma C5_get_invoices_witness :
  fst (@get_invoices_between_dates scripted demo_client "2024-03-01"
         "2024-03-31" (scripted_state [Ok (file_response 500 "busy")]))
  = Ok (VList []).
Proof.
  refine (proj1 (proj1 (@C5_get_invoices scripted demo_client "2024-03-01"
                          "2024-03-31"
                          (scripted_state [Ok (file_response 500 "busy")])
                          (file_response 500 "busy") [] eq_refl) _)).
  discriminate.
Defined.

Lemma C6_download_attachment_witness :
  files (snd (@download_attachment scripted demo_client
                (VStr "https://files.example/a1") "invoice_pdfs/a.pdf"
                (scripted_state [Ok (file_response 200 "%PDF")])))
  = <["invoice_pdfs/a.pdf" := "%PDF"]> ∅.
Proof.
  exact (proj2 (proj2 (proj2
           (@C6_download_attachment scripted demo_client
              (VStr "https://files.example/a1") "invoice_pdfs/a.pdf"
              (scripted_state [Ok (file_response 200 "%PDF")])
              (file_response 200 "%PDF") [] eq_refl)) eq_refl eq_refl)).
Defined.


(** The run of [demo_script] counted: two API calls, the listing of the
    invoices and that of the attachments of the one invoice, and two
    download requests, one for each of its two attachments. *)
Example demo_run_counted :
  api_calls (sent (snd (@main_body scripted demo_client demo_args
                          (scripted_state demo_script)))) = 2
  /\ downloads (sent (snd (@main_body scripted demo_client demo_args
                             (scripted_state demo_script)))) = 2.
Proof. split; vm_compute; reflexivity. Qed.

Lemma C8_downloaded_le_total_witness :
  exists c,
    last (log (snd (@main_body scripted demo_client demo_args
                      (scripted_state demo_script))))
    = Some (INFO, @summary c)
    /\ (0 <= downloaded_attachments c <= total_attachments c)%Z.
Proof.
  refine (proj2 (proj2 (@C8_downloaded_le_total scripted demo_client))
            demo_args (scripted_state demo_script) _ _).
  vm_compute. reflexivity.
Defined.

Lemma C9_bad_date_ends_run_witness :
  exists s4 e,
    @try_except scripted unit (@main_body scripted demo_client demo_args)
      error_handler (scripted_state undated_script)
    = (Ok tt, @add_log scripted ERROR ("Error: " +:+ @str_exn scripted e) s4)
    /\ length (sent s4) = 2.
Proof.
  eexists. eexists. split.
  - refine (proj1 (proj2 (proj2
              (@C9_bad_date_ends_run scripted demo_client demo_args
                 (scripted_state undated_script) _ _ _ _
                 _ undated_invoice _ _ _ demo_attachment _
                 [] [demo_invoice] [] [demo_attachment] _ _ _
                 _ _ _ _ _ _ _ _ _ _ _)))).
    + vm_compute. reflexivity.
    + reflexivity.
    + reflexivity.
    + reflexivity.
    + reflexivity.
    + reflexivity.
    + vm_compute. reflexivity.
    + reflexivity.
    + reflexivity.
    + reflexivity.
    + reflexivity.
  - reflexivity.
Defined.

Lemma C10_filters_popped_in_place_witness :
  @load scripted (Obj 0)
    (snd (@_send_request scripted demo_client "GET"
            "https://ar.example/f1/Purchase/Bill" (Obj 0) (VDict [])
            (scripted_heap_state demo_script [filtered_params])))
  = [("$top", VInt 5)].
Proof.
  exact (proj1 (@C10_filters_popped_in_place scripted demo_client "GET"
                  "https://ar.example/f1/Purchase/Bill" (Obj 0) (VDict [])
                  (scripted_heap_state demo_script [filtered_params])
                  [("Status", VStr "Open")] eq_refl)).
Defined.

(** A [params] dictionary whose [filters] entry is a string: the call
    raises at [.items()], before the entry is popped, and the entry is
    still there. *)
Lemma C10_counterexample :
  let s := scripted_heap_state demo_script
             [[("filters", VStr "Open"); ("$top", VInt 5)]] in
  let r := @_send_request scripted demo_client "GET"
             "https://ar.example/f1/Purchase/Bill" (Obj 0) (VDict []) s in
  PyVal.contains "filters" (@load scripted (Obj 0) s) = true
  /\ fst r = Raise (Builtin (AttributeError (VStr "Open") "items"))
  /\ PyVal.lookup "filters" (@load scripted (Obj 0) (snd r))
     = Some (VStr "Open").
Proof. cbv zeta. repeat split; vm_compute; reflexivity. Qed.

(** * Further properties of the client and of the driver *)

Section Further.

Context `{W : World}.

(** ** Relations kept by every step *)

Lemma preserves_ret {A} (R : State -> State -> Prop) `{!Reflexive R} (a : A) :
  preserves R (ret a).
Proof. intros s. simpl. reflexivity. Qed.

Lemma preserves_raise {A} (R : State -> State -> Prop) `{!Reflexive R}
    (e : exn) :
  preserves R (@raise _ A e).
Proof. intros s. simpl. reflexivity. Qed.

Lemma preserves_lift {A} (R : State -> State -> Prop) `{!Reflexive R}
    (o : outcome A) :
  preserves R (lift o).
Proof. intros s. simpl. reflexivity. Qed.

Lemma preserves_deref (R : State -> State -> Prop) `{!Reflexive R} (p : ref) :
  preserves R (deref p).
Proof. intros s. simpl. reflexivity. Qed.

Lemma preserves_bind_ensures {A B} (R : State -> State -> Prop)
    `{!Transitive R} (P : A -> Prop) (m : M A) (k : A -> M B) :
  preserves R m ->
  (forall s a s', m s = (Ok a, s') -> P a) ->
  (forall a, P a -> preserves R (k a)) ->
  preserves R (bind m k).
Proof.
  intros Hm HP Hk s. rewrite bind_run. specialize (Hm s).
  destruct (m s) as [[a|e] s1] eqn:E; simpl in *; [|exact Hm].
  transitivity s1; [exact Hm|]. apply Hk. exact (HP _ _ _ E).
Qed.

Lemma preserves_bind {A B} (R : State -> State -> Prop) `{!Transitive R}
    (m : M A) (k : A -> M B) :
  preserves R m -> (forall a, preserves R (k a)) -> preserves R (bind m k).
Proof.
  intros Hm Hk.
  apply (preserves_bind_ensures R (fun _ => True)); auto.
Qed.

Lemma preserves_try_except {A} (R : State -> State -> Prop) `{!Transitive R}
    (m : M A) (handler : exn -> M A) :
  preserves R m -> (forall e, preserves R (handler e)) ->
  preserves R (try_except m handler).
Proof.
  intros Hm Hh s. unfold try_except. specialize (Hm s).
  destruct (m s) as [[a|e] s1]; simpl in *; [exact Hm|].
  transitivity s1; [exact Hm | apply Hh].
Qed.

Lemma preserves_for_each {A B} (R : State -> State -> Prop) `{!PreOrder R}
    (xs : list A) (acc : B) (body : B -> A -> M B) :
  (forall acc x, preserves R (body acc x)) ->
  preserves R (for_each xs acc body).
Proof.
  intros Hb. revert acc. induction xs as [|x xs IH]; intros acc.
  - apply preserves_ret. apply _.
  - simpl. apply preserves_bind; [apply _ | apply Hb | intros; apply IH].
Qed.

#[local] Instance fs_untouched_preorder : PreOrder fs_untouched.
Proof.
  split.
  - intros s. now split.
  - intros s1 s2 s3 [A1 A2] [B1 B2]. split; congruence.
Qed.

#[local] Instance footprint_preorder (hs : list (string * string)) :
  PreOrder (footprint hs).
Proof.
  split.
  - intros s. split; [reflexivity|]. split; [set_solver|].
    split; [exists []; now rewrite app_nil_r|].
    split; [exists []; now rewrite app_nil_r | auto].
  - intros s1 s2 s3 (F1 & D1 & (r1 & S1 & P1) & (l1 & L1) & Q1)
      (F2 & D2 & (r2 & S2 & P2) & (l2 & L2) & Q2).
    split; [intros path Hp; now rewrite F2, F1|].
    split.
    { intros x Hx. apply D2, elem_of_union in Hx.
      destruct Hx as [Hx|Hx]; [now apply elem_of_union_l | now apply D1]. }
    split.
    { exists (r1 ++ r2). rewrite S2, S1, app_assoc. split; [reflexivity|].
      now apply Forall_app. }
    split; [|auto]. exists (l1 ++ l2). now rewrite L2, L1, app_assoc.
Qed.

Lemma fs_untouched_logging (lv : level) (msg : string) :
  preserves fs_untouched (logging lv msg).
Proof. intros s. now split. Qed.

Lemma fs_untouched_http (rq : Request) : preserves fs_untouched (http rq).
Proof. intros s. unfold http. now destruct (send rq (env s)). Qed.

Lemma fs_untouched_alloc (d : dict) : preserves fs_untouched (alloc d).
Proof. intros s. now split. Qed.

Lemma fs_untouched_dict_pop (p : ref) (k : string) :
  preserves fs_untouched (dict_pop p k).
Proof. intros s. now destruct p. Qed.

Lemma footprint_intro (hs : list (string * string)) (s s' : State)
    (rqs : list Request) (entries : list (level * string)) :
  (forall path, String.prefix "invoice_pdfs/invoice_" path = false ->
                files s' !! path = files s !! path) ->
  dirs s' = dirs s \/ dirs s' = {[output_dir]} ∪ dirs s ->
  sent s' = sent s ++ rqs -> Forall (plain_get hs) rqs ->
  log s' = log s ++ entries ->
  (params_default s = [] -> params_default s' = []) ->
  footprint hs s s'.
Proof.
  intros Hf Hd Hs Hr Hl Hp. split; [exact Hf|]. split.
  - destruct Hd as [-> | ->]; set_solver.
  - split; [now exists rqs|]. split; [now exists entries | exact Hp].
Qed.

Lemma footprint_logging (hs : list (string * string)) (lv : level)
    (msg : string) :
  preserves (footprint hs) (logging lv msg).
Proof.
  intros s.
  apply (footprint_intro hs _ _ [] [(lv, msg)]); simpl; auto.
  now rewrite app_nil_r.
Qed.

Lemma footprint_http (hs : list (string * string)) (rq : Request) :
  plain_get hs rq -> preserves (footprint hs) (http rq).
Proof.
  intros Hrq s. unfold http. destruct (send rq (env s)) as [o e'].
  apply (footprint_intro hs _ _ [rq] []); simpl; auto.
  now rewrite app_nil_r.
Qed.

Lemma footprint_alloc (hs : list (string * string)) (d : dict) :
  preserves (footprint hs) (alloc d).
Proof.
  intros s.
  apply (footprint_intro hs _ _ [] []); simpl; auto; now rewrite app_nil_r.
Qed.

Lemma footprint_dict_pop (hs : list (string * string)) (p : ref)
    (k : string) :
  preserves (footprint hs) (dict_pop p k).
Proof.
  intros s.
  apply (footprint_intro hs _ _ [] []); destruct p; simpl; auto;
    try (now rewrite app_nil_r).
  now intros ->.
Qed.

Lemma footprint_write_file (hs : list (string * string)) (path data : string) :
  String.prefix "invoice_pdfs/invoice_" path = true ->
  preserves (footprint hs) (write_file path data).
Proof.
  intros Hp s. unfold write_file.
  destruct (open_wb path (env s)); [|destruct (torn_write path (env s))];
    [| |simpl; reflexivity];
    (apply (footprint_intro hs _ _ [] []); simpl; auto;
       try (now rewrite app_nil_r);
     intros q Hq; apply lookup_insert_ne; congruence).
Qed.

Lemma footprint_makedirs (hs : list (string * string)) :
  preserves (footprint hs) (os_makedirs output_dir).
Proof.
  intros s. unfold os_makedirs. destruct (makedirs_ok output_dir (env s)).
  - apply (footprint_intro hs _ _ [] []); simpl; auto;
      now rewrite app_nil_r.
  - simpl. reflexivity.
Qed.

Lemma plain_get_session (hs : list (string * string)) (url : string) :
  plain_get hs (mk_request "GET" url hs "").
Proof. unfold plain_get. simpl. auto. Qed.

Lemma plain_get_bare (hs : list (string * string)) (url : string) :
  plain_get hs (mk_request "GET" url [] "").
Proof. unfold plain_get. simpl. auto. Qed.

Lemma prefix_append (p x : string) : String.prefix p (p +:+ x) = true.
Proof.
  induction p as [|a p IH]; simpl; [now destruct x|].
  now destruct (ascii_dec a a).
Qed.

Lemma file_name_prefix (ymd : string) (number original : value) :
  String.prefix "invoice_pdfs/invoice_" (file_name ymd number original)
  = true.
Proof.
  exact (prefix_append "invoice_pdfs/invoice_"
           (ymd +:+ "_" +:+ str number +:+ "_" +:+ str original)).
Qed.

Ltac walk :=
  unfold logging_info, logging_error, session_request, requests_get,
    response_json;
  repeat (cbv zeta;
          first
            [ apply preserves_ret; apply _ | apply preserves_raise; apply _
            | apply preserves_lift; apply _ | apply preserves_deref; apply _
            | apply preserves_bind; [apply _ | | intros ?]
            | apply preserves_try_except; [apply _ | | intros ?]
            | apply preserves_for_each; [apply _ | intros ? ?]
            | apply fs_untouched_logging | apply fs_untouched_http
            | apply fs_untouched_alloc | apply fs_untouched_dict_pop
            | apply footprint_logging | apply footprint_alloc
            | apply footprint_dict_pop | apply footprint_makedirs
            | apply footprint_http; simpl;
              first [apply plain_get_session | apply plain_get_bare]
            | apply footprint_write_file;
              first [assumption | reflexivity | apply file_name_prefix]
            | match goal with
              | |- preserves _ (if ?b then _ else _) => destruct b
              | |- preserves _ (match ?x with _ => _ end) => destruct x
              end
            | progress unfold logging_info, logging_error, session_request,
                requests_get, response_json ]).

(** ** The file system and the listing operations *)

Lemma send_request_fs (self : MyobClient) (method url : string) (p : ref)
    (body : value) :
  preserves fs_untouched (_send_request self method url p body).
Proof. unfold _send_request. walk. Qed.

Lemma get_invoices_fs (self : MyobClient) (sd ed : string) :
  preserves fs_untouched (get_invoices_between_dates self sd ed).
Proof. unfold get_invoices_between_dates. walk. Qed.

Lemma get_attachments_fs (self : MyobClient) (uid : value) :
  preserves fs_untouched (get_invoice_attachments self uid).
Proof. unfold get_invoice_attachments. walk. Qed.

Lemma init_fs (client_id access_token : string) :
  preserves fs_untouched (MyobClient__init__ client_id access_token).
Proof. unfold MyobClient__init__. walk. Qed.

(** ** What a run leaves behind *)

Lemma download_footprint (hs : list (string * string)) (self : MyobClient)
    (uri : value) (path : string) :
  String.prefix "invoice_pdfs/invoice_" path = true ->
  preserves (footprint hs) (download_attachment self uri path).
Proof. intros Hp. unfold download_attachment. walk. Qed.

Lemma process_attachment_footprint (hs : list (string * string))
    (client : MyobClient) (number date : value) (c : counters)
    (att : value) :
  preserves (footprint hs) (process_attachment client number date c att).
Proof. unfold process_attachment, guarded_download. walk. Qed.

Lemma main_body_footprint (client : MyobClient) (args : Args) :
  preserves (footprint (session_headers client)) (main_body client args).
Proof. unfold main_body, process_invoices. walk. Qed.

Lemma init_headers (client_id access_token : string) (s s' : State)
    (client : MyobClient) :
  MyobClient__init__ client_id access_token s = (Ok client, s') ->
  session_headers client = auth_headers client_id access_token.
Proof.
  unfold MyobClient__init__, response_json, http, logging_info, logging,
    bind, ret, raise, lift.
  destruct (send _ (env s)) as [[rsp|e] e']; [|discriminate].
  destruct (json_body rsp) as [accounts|]; [|discriminate].
  destruct (PyVal.first accounts) as [account|e]; [|discriminate].
  destruct (PyVal.subscript account "Uri") as [uri|e]; [|discriminate].
  intros H. now injection H as <- _.
Qed.

Lemma init_footprint (client_id access_token : string) :
  preserves (footprint (auth_headers client_id access_token))
    (MyobClient__init__ client_id access_token).
Proof. unfold MyobClient__init__. walk. Qed.

Lemma main_footprint (args : Args) :
  preserves
    (footprint (auth_headers (myob_client_id args) (myob_access_token args)))
    (main args).
Proof.
  unfold main.
  destruct (DateTime.strptime_date (start_date args));
    [destruct (DateTime.strptime_date (end_date args))|];
    try apply footprint_logging.
  apply preserves_bind; [apply _ | apply footprint_makedirs | intros _].
  eapply (preserves_bind_ensures _
            (fun client => session_headers client
                           = auth_headers (myob_client_id args)
                               (myob_access_token args))).
  - apply init_footprint.
  - intros s0 client s' H. exact (init_headers _ _ _ _ _ H).
  - intros client <-. apply preserves_try_except; [apply _ | |].
    + apply main_body_footprint.
    + intros e. apply footprint_logging.
Qed.

Ltac run_m :=
  unfold response_json, session_request, requests_get, http, write_file,
    os_makedirs, deref, dict_pop, logging_info, logging_error, logging,
    try_except, bind, ret, raise, lift in *.

(** ** The attachment listing *)

Lemma get_attachments_run (self : MyobClient) (uid : value) (s : State) :
  params_default s = [] ->
  get_invoice_attachments self uid s =
  let rq := attachments_request self uid in
  let s1 :=
    add_log INFO ("Making GET request to: " +:+ req_url rq)
      (add_log INFO ("Getting attachments for invoice UID: " +:+ str uid) s) in
  match send rq (env s) with
  | (Raise e, e') => (Raise e, sent_to rq e' s1)
  | (Ok rsp, e') =>
      let s2 :=
        add_log (if negb (status_code rsp =? 200)%Z then ERROR else INFO)
          (if negb (status_code rsp =? 200)%Z
           then "Response text: " +:+ text rsp else "Request successful")
          (add_log INFO
             ("Response status code: " +:+ PyStr.of_int (status_code rsp))
             (sent_to rq e' s1)) in
      if negb (status_code rsp =? 200)%Z then
        (Ok (VList []), add_log ERROR "Failed to get attachments" s2)
      else
        match json_body rsp with
        | None => (Raise (Builtin (JSONDecodeError (text rsp))), s2)
        | Some data => (PyVal.get data "Attachments" (VList []), s2)
        end
  end.
Proof.
  intros Hp. unfold get_invoice_attachments.
  unfold logging_info at 1, logging at 1. rewrite bind_run. cbv zeta.
  set (s0 := add_log INFO _ s).
  assert (Hf : filter_half (load DefaultParams s0) = Some "")
    by (simpl; now rewrite Hp).
  rewrite bind_run.
  rewrite (send_request_run self "GET" _ DefaultParams (VDict []) s0 _ Hf).
  cbv zeta. change (load DefaultParams s0) with (params_default s).
  rewrite Hp. change (PyVal.pop "filters" []) with (@nil (string * value)).
  change (query_string "" (plain_pairs [])) with "".
  change (PyVal.truthy (VDict [])) with false. cbv iota.
  change (negb (PyStr.is_empty "")) with false. cbv iota.
  change (env s0) with (env s).
  fold (attachments_request self uid).
  assert (Hs : store DefaultParams [] s0 = s0).
  { unfold store, s0, add_log. simpl. now rewrite Hp. }
  rewrite Hs.
  destruct (send (attachments_request self uid) (env s)) as [[rsp|e] e'];
    [|reflexivity].
  destruct (negb (status_code rsp =? 200)%Z); [reflexivity|].
  run_m. now destruct (json_body rsp).
Qed.

(** X1.  With an empty default [params] object, the attachment listing
    sends one request, to [<api_url>/Purchase/Bill/Service/<uid>/Attachment]
    without query string; on a status other than 200 it returns the empty
    list and its last log line is the error [Failed to get attachments];
    on 200 it returns what the JSON object holds under [Attachments], the
    empty list when the object has none, and raises when the body is no
    JSON or no object. *)
Theorem X1_get_invoice_attachments (self : MyobClient) (uid : value)
    (s : State) (rsp : Response) (e' : Env) :
  params_default s = [] ->
  send (attachments_request self uid) (env s) = (Ok rsp, e') ->
  let r := get_invoice_attachments self uid s in
  sent (snd r) = sent s ++ [attachments_request self uid]
  /\ (status_code rsp <> 200%Z ->
      fst r = Ok (VList [])
      /\ last (log (snd r)) = Some (ERROR, "Failed to get attachments"))
  /\ (status_code rsp = 200%Z ->
      (json_body rsp = None ->
       fst r = Raise (Builtin (JSONDecodeError (text rsp))))
      /\ (forall d, json_body rsp = Some (VDict d) ->
          fst r = Ok (match PyVal.lookup "Attachments" d with
                      | Some v => v
                      | None => VList []
                      end))
      /\ (forall v, json_body rsp = Some v -> is_dict v = false ->
          fst r = Raise (Builtin (AttributeError v "get")))).
Proof.
  intros Hp Hsend. cbv zeta. rewrite (get_attachments_run _ _ _ Hp).
  cbv zeta. rewrite Hsend. split.
  - destruct (negb (status_code rsp =? 200)%Z); [reflexivity|].
    now destruct (json_body rsp).
  - split.
    + intros Hst. apply Z.eqb_neq in Hst. rewrite Hst. simpl.
      split; [reflexivity | apply last_snoc].
    + intros Hst. rewrite Hst. simpl. split; [now intros ->|]. split.
      * now intros d ->.
      * intros v -> Hv. now destruct v.
Qed.

(** ** Construction of the client *)

Lemma init_run (client_id access_token : string) (s : State) :
  MyobClient__init__ client_id access_token s =
  let rq := discovery_request client_id access_token in
  match send rq (env s) with
  | (Raise e, e') => (Raise e, sent_to rq e' s)
  | (Ok rsp, e') =>
      match json_body rsp with
      | None => (Raise (Builtin (JSONDecodeError (text rsp))), sent_to rq e' s)
      | Some accounts =>
          match PyVal.first accounts with
          | Raise e => (Raise e, sent_to rq e' s)
          | Ok account =>
              match PyVal.subscript account "Uri" with
              | Raise e => (Raise e, sent_to rq e' s)
              | Ok uri =>
                  (Ok (mk_client client_id access_token
                         (auth_headers client_id access_token) uri),
                   add_log INFO ("Using API URL: " +:+ str uri)
                     (sent_to rq e' s))
              end
          end
      end
  end.
Proof.
  unfold MyobClient__init__, discovery_request, auth_headers. run_m.
  destruct (send _ (env s)) as [[rsp|e] e']; [|reflexivity].
  destruct (json_body rsp) as [accounts|]; [|reflexivity].
  destruct (PyVal.first accounts) as [account|e]; [|reflexivity].
  now destruct (PyVal.subscript account "Uri").
Qed.

(** X2.  Construction sends one request, a [GET] to the fixed discovery
    URL under the four session headers; when the answer is a JSON list
    whose first element is an object with a [Uri], the client's base URL
    is that [Uri], whatever the status code and the other accounts are,
    and one line is logged. *)
Theorem X2_init_takes_first_account (client_id access_token : string)
    (s : State) (rsp : Response) (e' : Env) (account : dict)
    (others : list value) (uri : value) :
  send (discovery_request client_id access_token) (env s) = (Ok rsp, e') ->
  json_body rsp = Some (VList (VDict account :: others)) ->
  PyVal.lookup "Uri" account = Some uri ->
  MyobClient__init__ client_id access_token s
  = (Ok (mk_client client_id access_token
           (auth_headers client_id access_token) uri),
     add_log INFO ("Using API URL: " +:+ str uri)
       (sent_to (discovery_request client_id access_token) e' s)).
Proof.
  intros Hsend Hj Hu. rewrite init_run. cbv zeta.
  rewrite Hsend, Hj. simpl. now rewrite Hu.
Qed.

(** X3.  When the discovery answer lists no account, construction raises
    [IndexError], and [main], which constructs the client outside its
    [try] block, raises it too: the output directory is made, the
    discovery request is the only one sent, nothing is logged. *)
Theorem X3_no_account_is_fatal (args : Args) (s : State) (rsp : Response)
    (e' : Env) (d1 d2 : DateTime.datetime) :
  DateTime.strptime_date (start_date args) = Some d1 ->
  DateTime.strptime_date (end_date args) = Some d2 ->
  makedirs_ok output_dir (env s) = true ->
  send (discovery_request (myob_client_id args) (myob_access_token args))
    (env s) = (Ok rsp, e') ->
  json_body rsp = Some (VList []) ->
  fst (main args s) = Raise (Builtin (IndexError (VList [])))
  /\ sent (snd (main args s))
     = sent s ++ [discovery_request (myob_client_id args)
                    (myob_access_token args)]
  /\ log (snd (main args s)) = log s
  /\ dirs (snd (main args s)) = {[output_dir]} ∪ dirs s
  /\ files (snd (main args s)) = files s.
Proof.
  intros H1 H2 Hm Hsend Hj.
  assert (E : main args s
              = (Raise (Builtin (IndexError (VList []))),
                 sent_to (discovery_request (myob_client_id args)
                            (myob_access_token args)) e'
                   (mk_state (env s) (sent s) ({[output_dir]} ∪ dirs s)
                      (files s) (params_default s) (heap s) (log s)))).
  { unfold main. rewrite H1, H2. rewrite bind_run. unfold os_makedirs.
    rewrite Hm. rewrite bind_run, init_run. cbv zeta. simpl env.
    now rewrite Hsend, Hj. }
  rewrite E. repeat split; reflexivity.
Qed.

(** X4.  Once the client is constructed, [main] returns normally whatever
    happens in its [try] block: every error of the listing, of an invoice
    or of an attachment ends in the handler's log line. *)
Theorem X4_main_returns_after_construction (args : Args) (s s1 : State)
    (client : MyobClient) (d1 d2 : DateTime.datetime) :
  DateTime.strptime_date (start_date args) = Some d1 ->
  DateTime.strptime_date (end_date args) = Some d2 ->
  makedirs_ok output_dir (env s) = true ->
  MyobClient__init__ (myob_client_id args) (myob_access_token args)
    (snd (os_makedirs output_dir s)) = (Ok client, s1) ->
  fst (main args s) = Ok tt
  /\ (forall e s2, main_body client args s1 = (Raise e, s2) ->
      main args s = (Ok tt, add_log ERROR ("Error: " +:+ str_exn e) s2)).
Proof.
  intros H1 H2 Hm Hinit.
  assert (E : main args s
              = try_except (main_body client args)
                  (fun e => logging_error ("Error: " +:+ str_exn e)) s1).
  { unfold main. rewrite H1, H2. rewrite bind_run.
    unfold os_makedirs in *. rewrite Hm in *. simpl snd in Hinit.
    now rewrite bind_run, Hinit. }
  rewrite E. unfold try_except. split.
  - now destruct (main_body client args s1) as [[[]|e] s2].
  - intros e s2 ->. reflexivity.
Qed.

(** X5.  When the output directory cannot be made, [main] raises the
    error of [os.makedirs] and nothing else has happened: no request, no
    log line. *)
Theorem X5_makedirs_failure (args : Args) (s : State)
    (d1 d2 : DateTime.datetime) :
  DateTime.strptime_date (start_date args) = Some d1 ->
  DateTime.strptime_date (end_date args) = Some d2 ->
  makedirs_ok output_dir (env s) = false ->
  main args s = (Raise (Builtin (OSError "invoice_pdfs")), s).
Proof.
  intros H1 H2 Hm. unfold main. rewrite H1, H2. rewrite bind_run.
  unfold os_makedirs. now rewrite Hm.
Qed.

(** ** Runs without invoices *)

(** X6.  When the listing answers with a status other than 200, or with
    an object whose [Items] is absent or empty, the [try] block of [main]
    returns normally, its last log line is the summary with 0 found and 0
    downloaded, the listing request is the only request it sends and no
    file is touched. *)
Theorem X6_no_invoices_no_downloads (client : MyobClient) (args : Args)
    (s : State) (rsp : Response) (e' : Env) :
  send (invoices_request client (start_date args) (end_date args)) (env s)
  = (Ok rsp, e') ->
  (status_code rsp <> 200%Z
   \/ (status_code rsp = 200%Z
       /\ exists d, json_body rsp = Some (VDict d)
                    /\ (PyVal.lookup "Items" d = None
                        \/ PyVal.lookup "Items" d = Some (VList [])))) ->
  fst (main_body client args s) = Ok tt
  /\ last (log (snd (main_body client args s)))
     = Some (INFO,
             "Download complete. Found 0 attachments, successfully downloaded 0")
  /\ sent (snd (main_body client args s))
     = sent s ++ [invoices_request client (start_date args) (end_date args)]
  /\ files (snd (main_body client args s)) = files s.
Proof.
  intros Hsend Hcase.
  pose proof (get_invoices_fs client (start_date args) (end_date args) s)
    as [Hfiles _].
  destruct (get_invoices_run client (start_date args) (end_date args) s)
    as (s1 & _ & Hs1 & R).
  rewrite Hsend in R. cbv zeta in R.
  assert (E : exists s2,
             get_invoices_between_dates client (start_date args)
               (end_date args) s = (Ok (VList []), s2)
             /\ sent s2 = sent s ++ [invoices_request client (start_date args)
                                       (end_date args)]).
  { destruct Hcase as [Hst | (Hst & d & Hd & Hi)].
    - apply Z.eqb_neq in Hst. rewrite Hst in R. simpl in R.
      eexists. split; [exact R|]. simpl. now rewrite Hs1.
    - rewrite Hst, Hd in R. simpl in R.
      destruct Hi as [Hi|Hi]; rewrite Hi in R; simpl in R;
        (eexists; split; [exact R|]); simpl; now rewrite Hs1. }
  destruct E as (s2 & E & Hsent).
  rewrite E in Hfiles. simpl in Hfiles.
  assert (Em : main_body client args s
               = (Ok tt, add_log INFO (summary (mk_counters 0 0)) s2)).
  { unfold main_body. rewrite bind_run, E. reflexivity. }
  rewrite Em. simpl. repeat split; try assumption.
  apply last_snoc.
Qed.

(** ** The loop over the attachments of an invoice *)

(** X7.  For an invoice whose date parses and a list of attachment
    objects, the loop returns normally whatever the downloads do; the
    requests it sends are the download requests of exactly the
    attachments with a file URI, one each, in the order of the list;
    those without are skipped; the total is left as it was. *)
Theorem X7_one_attempt_per_file_uri (client : MyobClient)
    (number date : value) (dt : DateTime.datetime) (atts : list value)
    (c : counters) (s : State) :
  strptime_value date = Ok dt ->
  forallb is_dict atts = true ->
  exists c' s',
    for_each atts c (process_attachment client number date) s = (Ok c', s')
    /\ total_attachments c' = total_attachments c
    /\ sent s' = sent s ++ map download_request (List.filter has_file_uri atts).
Proof.
  intros Hd. revert c s. induction atts as [|att atts IH]; intros c s Hall.
  - exists c, s. simpl. now rewrite app_nil_r.
  - simpl in Hall. apply andb_true_iff in Hall as [Ha Hall].
    destruct att; try discriminate.
    destruct (process_attachment_dict client number date dt c entries s Hd)
      as (c1 & s1 & E1 & T1 & S1).
    destruct (IH c1 s1 Hall) as (c' & s' & E & T & S).
    exists c', s'. simpl for_each. rewrite bind_run, E1.
    split; [exact E|]. split; [congruence|].
    rewrite S, S1. cbn [List.filter].
    destruct (has_file_uri (VDict entries)); simpl.
    + now rewrite <- app_assoc.
    + now rewrite app_nil_r.
Qed.

(** ** Missing fields *)

(** X8.  An invoice without [UID] raises [KeyError] and an invoice that
    is no object raises [AttributeError], in both cases before anything
    is logged or requested for it; the loop over the invoices stops
    there. *)
Theorem X8_invoice_without_uid (client : MyobClient) (c : counters)
    (inv : value) (rest : list value) (s : State) :
  (forall d, inv = VDict d -> PyVal.lookup "UID" d = None ->
             process_invoice client c inv s
             = (Raise (Builtin (KeyError "UID")), s)
             /\ for_each (inv :: rest) c (process_invoice client) s
                = (Raise (Builtin (KeyError "UID")), s))
  /\ (is_dict inv = false ->
      process_invoice client c inv s
      = (Raise (Builtin (AttributeError inv "get")), s)
      /\ for_each (inv :: rest) c (process_invoice client) s
         = (Raise (Builtin (AttributeError inv "get")), s)).
Proof.
  split.
  - intros d -> Hu.
    assert (E : process_invoice client c (VDict d) s
                = (Raise (Builtin (KeyError "UID")), s)).
    { unfold process_invoice. simpl PyVal.get. simpl PyVal.subscript.
      rewrite Hu. reflexivity. }
    split; [exact E|]. simpl for_each. now rewrite bind_run, E.
  - intros Hd.
    assert (E : process_invoice client c inv s
                = (Raise (Builtin (AttributeError inv "get")), s))
      by (destruct inv; try discriminate; reflexivity).
    split; [exact E|]. simpl for_each. now rewrite bind_run, E.
Qed.

(** X9.  A missing field behaves as its default written out: an invoice
    without [Number] as one numbered ["unknown"], without [Date] as one
    dated ["unknown"]; an attachment without [OriginalFileName] as one
    named ["unknown.pdf"], without [FileUri] as one whose [FileUri] is
    [None]. *)
Theorem X9_missing_fields_take_defaults (client : MyobClient) (c : counters)
    (s : State) :
  (forall d, PyVal.lookup "Number" d = None ->
             process_invoice client c (VDict d) s
             = process_invoice client c
                 (VDict (("Number", VStr "unknown") :: d)) s)
  /\ (forall d, PyVal.lookup "Date" d = None ->
                process_invoice client c (VDict d) s
                = process_invoice client c
                    (VDict (("Date", VStr "unknown") :: d)) s)
  /\ (forall number date a,
         PyVal.lookup "OriginalFileName" a = None ->
         process_attachment client number date c (VDict a) s
         = process_attachment client number date c
             (VDict (("OriginalFileName", VStr "unknown.pdf") :: a)) s)
  /\ (forall number date a,
         PyVal.lookup "FileUri" a = None ->
         process_attachment client number date c (VDict a) s
         = process_attachment client number date c
             (VDict (("FileUri", VNone) :: a)) s).
Proof.
  split; [|split; [|split]].
  - intros d H. unfold process_invoice. simpl PyVal.get.
    simpl PyVal.subscript. now rewrite H.
  - intros d H. unfold process_invoice. simpl PyVal.get.
    simpl PyVal.subscript. now rewrite H.
  - intros number date a H. unfold process_attachment. simpl PyVal.get.
    now rewrite H.
  - intros number date a H. unfold process_attachment. simpl PyVal.get.
    now rewrite H.
Qed.

(** ** Invoices and their attachment lists *)

(** X10.  When the attachment listing of an invoice answers with a status
    other than 200, the invoice is treated as having no attachment: the
    loop body returns the counters as they were, its last log line is
    [No attachments found for invoice <number>], and the listing request
    is the only one it sent. *)
Theorem X10_attachment_listing_failure_is_skipped (client : MyobClient)
    (c : counters) (inv number date uid : value) (s : State)
    (rsp : Response) (e' : Env) :
  PyVal.get inv "Number" (VStr "unknown") = Ok number ->
  PyVal.get inv "Date" (VStr "unknown") = Ok date ->
  PyVal.subscript inv "UID" = Ok uid ->
  params_default s = [] ->
  send (attachments_request client uid) (env s) = (Ok rsp, e') ->
  status_code rsp <> 200%Z ->
  fst (process_invoice client c inv s) = Ok c
  /\ last (log (snd (process_invoice client c inv s)))
     = Some (INFO, "No attachments found for invoice " +:+ str number)
  /\ sent (snd (process_invoice client c inv s))
     = sent s ++ [attachments_request client uid].
Proof.
  intros Hn Hd Hu Hp Hsend Hst. apply Z.eqb_neq in Hst.
  rewrite (process_invoice_run _ _ _ _ _ _ _ Hn Hd Hu).
  rewrite get_attachments_run by exact Hp. cbv zeta.
  change (env (add_log INFO _ s)) with (env s). rewrite Hsend, Hst.
  simpl. split; [reflexivity|]. split; [apply last_snoc | reflexivity].
Qed.

(** X16.  The total counts every attachment the listing returned, whether
    it is then downloaded, fails or is skipped: an invoice whose listing
    answers 200 with a list under [Attachments] adds the length of that
    list to the total. *)
Theorem X16_total_counts_listed_attachments (client : MyobClient)
    (c c' : counters) (inv number date uid : value) (s s' : State)
    (rsp : Response) (e' : Env) (d : dict) (l : list value) :
  PyVal.get inv "Number" (VStr "unknown") = Ok number ->
  PyVal.get inv "Date" (VStr "unknown") = Ok date ->
  PyVal.subscript inv "UID" = Ok uid ->
  params_default s = [] ->
  send (attachments_request client uid) (env s) = (Ok rsp, e') ->
  status_code rsp = 200%Z ->
  json_body rsp = Some (VDict d) ->
  PyVal.lookup "Attachments" d = Some (VList l) ->
  process_invoice client c inv s = (Ok c', s') ->
  total_attachments c' = (total_attachments c + Z.of_nat (length l))%Z.
Proof.
  intros Hn Hd Hu Hp Hsend Hst Hj Hl.
  rewrite (process_invoice_run _ _ _ _ _ _ _ Hn Hd Hu).
  rewrite get_attachments_run by exact Hp. cbv zeta.
  change (env (add_log INFO _ s)) with (env s). rewrite Hsend, Hst, Hj.
  simpl. rewrite Hl. destruct l as [|att l].
  - simpl. intros H. injection H as <- _. simpl. lia.
  - cbn [PyVal.truthy PyVal.len PyVal.iter]. cbv zeta. intros H.
    apply attachments_loop_counts in H. simpl in H. simpl length. lia.
Qed.

(** ** The query string *)

Lemma ends_with_split (c : ascii) (t : string) :
  t <> "" -> PyStr.ends_with c t = false ->
  exists m y, PyStr.chars t = m ++ [y] /\ Ascii.eqb y c = false.
Proof.
  intros Hne He. unfold PyStr.ends_with in He.
  destruct (rev (PyStr.chars t)) as [|y r] eqn:E.
  - apply (f_equal (@rev ascii)) in E. rewrite rev_involutive in E.
    simpl in E. destruct t; [congruence | discriminate].
  - exists (rev r), y. split; [|exact He].
    apply (f_equal (@rev ascii)) in E. rewrite rev_involutive in E.
    exact E.
Qed.

Lemma query_string_both (f nf : string) :
  f <> "" -> nf <> "" ->
  PyStr.starts_with "&" f = false -> PyStr.ends_with "&" nf = false ->
  query_string f nf = f +:+ "&" +:+ nf.
Proof.
  intros Hf Hnf Hs He. unfold query_string.
  destruct f as [|x f]; [congruence|]. simpl in Hs.
  destruct (ends_with_split _ _ Hnf He) as (m & y & Hm & Hy).
  change (PyStr.join "&" [String x f; nf]) with (String x f +:+ "&" +:+ nf).
  apply (strip_keeps "&" x y (PyStr.chars f ++ "&"%char :: m));
    [|exact Hs|exact Hy].
  rewrite !chars_app. change (PyStr.chars (String x f))
    with (x :: PyStr.chars f).
  change (PyStr.chars "&") with ["&"%char]. rewrite Hm.
  simpl. now rewrite <- app_assoc.
Qed.

Lemma filter_pairs_head (entries : dict) :
  entries <> [] ->
  filter_pairs entries <> ""
  /\ PyStr.starts_with "&" (filter_pairs entries) = false.
Proof.
  destruct entries as [|[k v] rest]; [congruence|]. intros _.
  unfold filter_pairs. simpl map. destruct rest; now simpl.
Qed.

Lemma plain_pairs_nonempty (params : dict) :
  params <> [] -> plain_pairs params <> "".
Proof.
  destruct params as [|[k v] rest]; [congruence|]. intros _.
  unfold plain_pairs. simpl map.
  destruct rest; simpl; destruct k; discriminate.
Qed.

(** X11.  With filters and plain parameters both present, the query
    string is the [filters[key]=value] pairs, an ["&"], and the
    [key=value] pairs, nothing stripped, provided the last plain value
    does not end in ["&"]; the pairs of each half stand in the order of
    their dict. *)
Theorem X11_query_string_with_filters (entries params : dict) :
  entries <> [] -> params <> [] ->
  PyStr.ends_with "&" (plain_pairs params) = false ->
  query_string (filter_pairs entries) (plain_pairs params)
  = filter_pairs entries +:+ "&" +:+ plain_pairs params.
Proof.
  intros He Hp Hend. destruct (filter_pairs_head entries He) as [H1 H2].
  apply query_string_both; auto. now apply plain_pairs_nonempty.
Qed.

(** ** The request primitive *)

(** X19.  [_send_request] sends one request, with the method it was
    given, the session's headers, and as data the compact JSON of the
    body when the body is true and nothing otherwise; whatever status the
    response has, it returns the response and does not raise; its last
    log line is [Request successful] for status 200 and the error
    [Response text: <text>] for any other. *)
Theorem X19_send_request_returns_any_status (self : MyobClient)
    (method url : string) (p : ref) (body : value) (s : State) (f : string)
    (rsp : Response) (e' : Env) :
  filter_half (load p s) = Some f ->
  let q := query_string f (plain_pairs (PyVal.pop "filters" (load p s))) in
  let rq := mk_request method
              (if negb (PyStr.is_empty q) then url +:+ "?" +:+ q else url)
              (session_headers self)
              (if PyVal.truthy body then json_dumps body else "") in
  send rq (env s) = (Ok rsp, e') ->
  fst (_send_request self method url p body s) = Ok rsp
  /\ sent (snd (_send_request self method url p body s)) = sent s ++ [rq]
  /\ last (log (snd (_send_request self method url p body s)))
     = Some (if (status_code rsp =? 200)%Z
             then (INFO, "Request successful")
             else (ERROR, "Response text: " +:+ text rsp)).
Proof.
  intros Hf q rq Hsend.
  rewrite (send_request_run self method url p body s f Hf). cbv zeta.
  fold q. fold rq. rewrite Hsend. simpl fst. simpl snd.
  split; [reflexivity|]. split.
  - simpl. now destruct p.
  - unfold add_log at 1. simpl log. rewrite last_snoc.
    now destruct (status_code rsp =? 200)%Z.
Qed.

(** X20.  A [filters] entry that is no dict makes [_send_request] raise
    [AttributeError] at [.items()], before the entry is popped and before
    anything is logged or sent: the state is what it was. *)
Theorem X20_filters_must_be_a_dict (self : MyobClient) (method url : string)
    (p : ref) (body : value) (s : State) (v : value) :
  PyVal.lookup "filters" (load p s) = Some v ->
  is_dict v = false ->
  _send_request self method url p body s
  = (Raise (Builtin (AttributeError v "items")), s).
Proof.
  intros Hl Hv. unfold _send_request, PyVal.contains. run_m.
  rewrite Hl. simpl. rewrite Hl. now destruct v.
Qed.

(** ** Downloads and the files *)

(** X18.  A download that raises makes no directory and changes nothing
    under any other path text.  Under its own path it changes nothing
    either when the fetch failed, the status was not 200 or [open]
    refused; when the file was opened and the write then broke off after
    [n] characters, the path holds those first [n] characters of the
    payload and what was there before is lost. *)
Theorem X18_failed_download_files (self : MyobClient)
    (uri : value) (path : string) (s s' : State) (e : exn) :
  download_attachment self uri path s = (Raise e, s') ->
  dirs s' = dirs s
  /\ (forall q, q <> path -> files s' !! q = files s !! q)
  /\ (files s' = files s
      \/ exists rsp e' n,
           send (mk_request "GET" (str uri) [] "") (env s) = (Ok rsp, e')
           /\ status_code rsp = 200%Z
           /\ open_wb path e' = false
           /\ torn_write path e' = Some n
           /\ files s'
              = <[path := PyStr.of_chars (take n (PyStr.chars (content rsp)))]>
                  (files s))
  /\ ((forall rsp e',
         send (mk_request "GET" (str uri) [] "") (env s) = (Ok rsp, e') ->
         status_code rsp = 200%Z -> open_wb path e' = false ->
         torn_write path e' = None) ->
      files s' = files s).
Proof.
  rewrite download_attachment_run. cbv zeta.
  destruct (send _ (env s)) as [[rsp|e0] e'] eqn:Hs.
  - destruct (negb (status_code rsp =? 200)%Z) eqn:St.
    + intros H. injection H as _ <-. simpl. repeat split; auto.
    + destruct (open_wb path e') eqn:O; [discriminate|].
      apply negb_false_iff, Z.eqb_eq in St.
      destruct (torn_write path e') as [n|] eqn:T;
        intros H; injection H as _ <-; simpl.
      * split; [reflexivity|]. split.
        { intros q Hq. now apply lookup_insert_ne. }
        split.
        { right. exists rsp, e', n. repeat split; auto. }
        intros Hn. specialize (Hn rsp e' eq_refl St O). congruence.
      * repeat split; auto.
  - intros H. injection H as _ <-. simpl. repeat split; auto.
Qed.

(** X12.  Two successful downloads to the same path leave the payload of
    the second there and nothing of the first: the files are those before
    the first download with the path set to the second payload; with
    equal payloads the second download changes no file. *)
Theorem X12_second_download_overwrites (self : MyobClient)
    (uri1 uri2 : value) (path : string) (s : State) (rsp1 rsp2 : Response)
    (e1 e2 : Env) :
  send (mk_request "GET" (str uri1) [] "") (env s) = (Ok rsp1, e1) ->
  status_code rsp1 = 200%Z -> open_wb path e1 = true ->
  send (mk_request "GET" (str uri2) [] "") e1 = (Ok rsp2, e2) ->
  status_code rsp2 = 200%Z -> open_wb path e2 = true ->
  let s1 := snd (download_attachment self uri1 path s) in
  let s2 := snd (download_attachment self uri2 path s1) in
  files s2 = <[path := content rsp2]> (files s)
  /\ (content rsp2 = content rsp1 -> files s2 = files s1).
Proof.
  intros H1 St1 O1 H2 St2 O2. cbv zeta.
  rewrite (download_attachment_run self uri1 path s). cbv zeta.
  rewrite H1, St1, O1. simpl snd.
  rewrite download_attachment_run. cbv zeta. simpl env.
  rewrite H2, St2, O2. simpl. split.
  - apply insert_insert_eq.
  - intros ->. apply insert_insert_eq.
Qed.

(** ** Whole runs *)

(** X13.  Whatever the servers answer, every path text a run of [main]
    hands to [open] starts with [invoice_pdfs/invoice_]: what is recorded
    under any other path text is as before the run; and the only
    directory the run asks [os.makedirs] for is [invoice_pdfs].  This is
    a statement about the texts, not about where the file system puts the
    files: what follows the prefix holds the invoice number and the
    original file name as the server gave them, [/] and [..] included
    (see [path_text_from_server] below). *)
Theorem X13_written_path_texts (args : Args) (s : State) :
  (forall path,
      String.prefix "invoice_pdfs/invoice_" path = false ->
      files (snd (main args s)) !! path = files s !! path)
  /\ dirs (snd (main args s)) ⊆ {[output_dir]} ∪ dirs s.
Proof.
  destruct (main_footprint args s) as (Hf & Hd & _). now split.
Qed.

(** X14.  Every request a run of [main] sends is a [GET] without body,
    either under the four session headers built from the arguments or,
    for a download, under no header at all; and the requests sent before
    the run are still there, in front. *)
Theorem X14_only_plain_gets (args : Args) (s : State) :
  exists rqs,
    sent (snd (main args s)) = sent s ++ rqs
    /\ Forall (fun rq =>
                 req_method rq = "GET" /\ req_data rq = ""
                 /\ (req_headers rq
                     = auth_headers (myob_client_id args)
                         (myob_access_token args)
                     \/ req_headers rq = [])) rqs.
Proof.
  destruct (main_footprint args s) as (_ & _ & (rqs & Hs & Hr) & _).
  exists rqs. split; [exact Hs | exact Hr].
Qed.

(** X15.  The default [params] object of [_send_request], shared by all
    the calls that pass no [params], is still empty after a run that
    found it empty. *)
Theorem X15_default_params_stay_empty (args : Args) (s : State) :
  params_default s = [] -> params_default (snd (main args s)) = [].
Proof.
  destruct (main_footprint args s) as (_ & _ & _ & _ & Hp). exact Hp.
Qed.

(** X21.  When both dates parse and the output directory can be made,
    the first request of the run is the discovery request: a [GET] to
    [https://api.myob.com/accountright/] under the bearer token, the API
    key, the API version [v2] and the JSON content type. *)
Theorem X21_discovery_comes_first (args : Args) (s : State)
    (d1 d2 : DateTime.datetime) :
  DateTime.strptime_date (start_date args) = Some d1 ->
  DateTime.strptime_date (end_date args) = Some d2 ->
  makedirs_ok output_dir (env s) = true ->
  exists rqs,
    sent (snd (main args s))
    = sent s
      ++ mk_request "GET" "https://api.myob.com/accountright/"
           [("Authorization", "Bearer " +:+ myob_access_token args);
            ("x-myobapi-key", myob_client_id args);
            ("x-myobapi-version", "v2");
            ("Content-Type", "application/json")] ""
         :: rqs.
Proof.
  intros H1 H2 Hm. unfold main. rewrite H1, H2. rewrite bind_run.
  unfold os_makedirs at 1. rewrite Hm. rewrite bind_run.
  set (s0 := mk_state (env s) (sent s) ({[output_dir]} ∪ dirs s) (files s)
               (params_default s) (heap s) (log s)).
  rewrite init_run. cbv zeta. fold (auth_headers (myob_client_id args)
                                      (myob_access_token args)).
  fold (discovery_request (myob_client_id args) (myob_access_token args)).
  destruct (send _ (env s0)) as [[rsp|e] e']; [|now exists []].
  destruct (json_body rsp) as [accounts|]; [|now exists []].
  destruct (PyVal.first accounts) as [account|e]; [|now exists []].
  destruct (PyVal.subscript account "Uri") as [uri|e]; [|now exists []].
  set (client := mk_client _ _ _ uri). set (s1 := add_log INFO _ _).
  assert (Ht : preserves (footprint (session_headers client))
                 (try_except (main_body client args)
                    (fun e => logging_error ("Error: " +:+ str_exn e)))).
  { apply preserves_try_except; [apply _ | apply main_body_footprint |].
    intros e. apply footprint_logging. }
  destruct (Ht s1) as (_ & _ & (rqs & Hs & _) & _).
  exists rqs. rewrite Hs. simpl. now rewrite <- app_assoc.
Qed.

(** ** The dates of the command line *)

Lemma strptime_date_valid (t : string) (dt : DateTime.datetime) :
  DateTime.strptime_date t = Some dt ->
  DateTime.valid dt = true
  /\ DateTime.hour dt = 0%Z /\ DateTime.minute dt = 0%Z
  /\ DateTime.second dt = 0%Z.
Proof.
  unfold DateTime.strptime_date, DateTime.checked. intros H.
  repeat match type of H with
         | (if DateTime.valid ?d then _ else _) = _ =>
             destruct (DateTime.valid d) eqn:Hv; try discriminate
         | match ?x with _ => _ end = _ => destruct x; try discriminate
         end.
  injection H as <-. now repeat split.
Qed.

(** X17.  The validation of [main] accepts a date written YYYY-MM-DD
    exactly as far as it is a date of the calendar: what
    [strptime(.., '%Y-%m-%d')] accepts is a date with year 1 to 9999, a
    month 1 to 12 and a day that month has in that year, at midnight; and
    every such date, written with four, two and two digits, is accepted
    and read back as itself. *)
Theorem X17_date_validation (y m d : Z) :
  (forall t dt, DateTime.strptime_date t = Some dt ->
                (1 <= DateTime.year dt <= 9999)%Z
                /\ (1 <= DateTime.month dt <= 12)%Z
                /\ (1 <= DateTime.day dt
                    <= DateTime.days_in_month (DateTime.year dt)
                         (DateTime.month dt))%Z
                /\ DateTime.hour dt = 0%Z /\ DateTime.minute dt = 0%Z
                /\ DateTime.second dt = 0%Z)
  /\ ((1 <= y <= 9999)%Z -> (1 <= m <= 12)%Z ->
      (1 <= d <= DateTime.days_in_month y m)%Z ->
      DateTime.strptime_date
        (PyStr.pad4 y +:+ "-" +:+ PyStr.pad2 m +:+ "-" +:+ PyStr.pad2 d)
      = Some (DateTime.mk_datetime y m d 0 0 0)).
Proof.
  split.
  - intros t dt H. destruct (strptime_date_valid t dt H) as (Hv & Hh & Hm & Hs).
    unfold DateTime.valid in Hv. rewrite !andb_true_iff, !Z.leb_le in Hv.
    repeat split; try tauto; lia.
  - intros Hy Hm Hd.
    assert (Hd31 : (1 <= d <= 31)%Z).
    { unfold DateTime.days_in_month in Hd.
      repeat match type of Hd with
             | context [if ?b then _ else _] => destruct b
             end; lia. }
    unfold DateTime.strptime_date. rewrite !chars_app.
    change (PyStr.chars "-") with ["-"%char].
    repeat match goal with
           | |- context [[?c] ++ ?l] => change ([c] ++ l) with (c :: l)
           end.
    cbn [DateTime.match_groups].
    destruct (group_Y y ("-"%char :: PyStr.chars (PyStr.pad2 m)
                         ++ "-"%char :: PyStr.chars (PyStr.pad2 d)))
      as [-> ->]; [lia|].
    change (DateTime.match_alt (DateTime.re_lit "-") ("-"%char :: ?l))
      with (Some (["-"%char], l)).
    cbv iota beta.
    destruct (group_m m ("-"%char :: PyStr.chars (PyStr.pad2 d)))
      as [-> ->]; [lia|].
    change (DateTime.match_alt (DateTime.re_lit "-") ("-"%char :: ?l))
      with (Some (["-"%char], l)).
    cbv iota beta.
    rewrite <- (app_nil_r (PyStr.chars (PyStr.pad2 d))) at 1.
    destruct (group_d d []) as [-> ->]; [lia|].
    cbv iota beta. unfold DateTime.checked, DateTime.valid. simpl.
    assert (Hb : ((1 <=? y) && (y <=? 9999) && (1 <=? m) && (m <=? 12)
                  && (1 <=? d) && (d <=? DateTime.days_in_month y m))%Z
                 = true).
    { rewrite !andb_true_iff, !Z.leb_le. lia. }
    now rewrite Hb.
Qed.

(** ** Fields that are there but hold no list *)

(** X22.  A listing that answers 200 with an [Items] that has no length
    ([null], a number, a boolean) makes [get_invoices_between_dates]
    raise the [TypeError] of [len], where an absent [Items] gives the
    empty list. *)
Theorem X22_items_without_length (self : MyobClient) (sd ed : string)
    (s : State) (rsp : Response) (e' : Env) (d : dict) (v : value) (e : exn) :
  send (invoices_request self sd ed) (env s) = (Ok rsp, e') ->
  status_code rsp = 200%Z ->
  json_body rsp = Some (VDict d) ->
  PyVal.lookup "Items" d = Some v ->
  PyVal.len v = Raise e ->
  fst (get_invoices_between_dates self sd ed s) = Raise e
  /\ e = Builtin (TypeError "len" v).
Proof.
  intros Hsend Hst Hj Hl Hlen.
  destruct (get_invoices_run self sd ed s) as (s1 & _ & _ & R).
  rewrite R, Hsend. cbv zeta. rewrite Hst, Hj. simpl. rewrite Hl, Hlen.
  split; [reflexivity|].
  destruct v; simpl in Hlen; congruence.
Qed.

(** X23.  An attachment listing that answers 200 with an [Attachments]
    that is there but false ([null], [0], [false], an empty string, list
    or object) is an invoice without attachments: the counters stay, the
    last log line is [No attachments found for invoice <number>]. *)
Theorem X23_false_attachments_are_none (client : MyobClient) (c : counters)
    (inv number date uid : value) (s : State) (rsp : Response) (e' : Env)
    (d : dict) (v : value) :
  PyVal.get inv "Number" (VStr "unknown") = Ok number ->
  PyVal.get inv "Date" (VStr "unknown") = Ok date ->
  PyVal.subscript inv "UID" = Ok uid ->
  params_default s = [] ->
  send (attachments_request client uid) (env s) = (Ok rsp, e') ->
  status_code rsp = 200%Z ->
  json_body rsp = Some (VDict d) ->
  PyVal.lookup "Attachments" d = Some v ->
  PyVal.truthy v = false ->
  fst (process_invoice client c inv s) = Ok c
  /\ last (log (snd (process_invoice client c inv s)))
     = Some (INFO, "No attachments found for invoice " +:+ str number).
Proof.
  intros Hn Hd Hu Hp Hsend Hst Hj Hl Ht.
  rewrite (process_invoice_run _ _ _ _ _ _ _ Hn Hd Hu).
  rewrite get_attachments_run by exact Hp. cbv zeta.
  change (env (add_log INFO _ s)) with (env s). rewrite Hsend, Hst, Hj.
  simpl. rewrite Hl, Ht. simpl. split; [reflexivity | apply last_snoc].
Qed.

End Further.

(** * The further properties on concrete inputs *)

Lemma X1_get_invoice_attachments_witness :
  fst (get_invoice_attachments (W:=scripted) demo_client (VStr "u1")
         (scripted_state [Ok (file_response 503 "busy")]))
  = Ok (VList []).
Proof.
  refine (proj1 (proj1 (proj2
            (X1_get_invoice_attachments (W:=scripted) demo_client (VStr "u1")
               (scripted_state [Ok (file_response 503 "busy")])
               (file_response 503 "busy") [] eq_refl eq_refl)) _)).
  discriminate.
Defined.

Lemma X2_init_takes_first_account_witness :
  fst (MyobClient__init__ (W:=scripted) "id" "token"
         (scripted_state
            [Ok (json_response 401 "[..]"
                   (VList [VDict [("Uri", VStr "https://ar.example/f1")];
                           VDict [("Uri", VStr "https://ar.example/f2")]]))]))
  = Ok (mk_client "id" "token" (auth_headers "id" "token")
          (VStr "https://ar.example/f1")).
Proof.
  exact (f_equal fst
           (X2_init_takes_first_account (W:=scripted) "id" "token"
              (scripted_state
                 [Ok (json_response 401 "[..]"
                        (VList [VDict [("Uri", VStr "https://ar.example/f1")];
                                VDict [("Uri", VStr "https://ar.example/f2")]]))])
              (json_response 401 "[..]"
                 (VList [VDict [("Uri", VStr "https://ar.example/f1")];
                         VDict [("Uri", VStr "https://ar.example/f2")]]))
              [] [("Uri", VStr "https://ar.example/f1")]
              [VDict [("Uri", VStr "https://ar.example/f2")]]
              (VStr "https://ar.example/f1") eq_refl eq_refl eq_refl)).
Defined.

Lemma X3_no_account_is_fatal_witness :
  fst (main (W:=scripted) demo_args
         (scripted_state [Ok (json_response 200 "[]" (VList []))]))
  = Raise (Builtin (IndexError (VList []))).
Proof.
  exact (proj1 (X3_no_account_is_fatal (W:=scripted) demo_args
                  (scripted_state [Ok (json_response 200 "[]" (VList []))])
                  (json_response 200 "[]" (VList [])) []
                  (DateTime.mk_datetime 2024 3 1 0 0 0)
                  (DateTime.mk_datetime 2024 3 31 0 0 0)
                  eq_refl eq_refl eq_refl eq_refl eq_refl)).
Defined.

Lemma X4_main_returns_after_construction_witness :
  fst (main (W:=scripted) demo_args
         (scripted_state (accounts_answer :: undated_script)))
  = Ok tt.
Proof.
  refine (proj1 (X4_main_returns_after_construction (W:=scripted) demo_args
                   (scripted_state (accounts_answer :: undated_script))
                   _ _ (DateTime.mk_datetime 2024 3 1 0 0 0)
                   (DateTime.mk_datetime 2024 3 31 0 0 0)
                   eq_refl eq_refl eq_refl _)).
  vm_compute. reflexivity.
Defined.

Lemma X5_makedirs_failure_witness :
  main (W:=readonly) demo_args (readonly_state demo_script)
  = (Raise (Builtin (OSError "invoice_pdfs")), readonly_state demo_script).
Proof.
  exact (X5_makedirs_failure (W:=readonly) demo_args
           (readonly_state demo_script)
           (DateTime.mk_datetime 2024 3 1 0 0 0)
           (DateTime.mk_datetime 2024 3 31 0 0 0) eq_refl eq_refl eq_refl).
Defined.

Lemma X6_no_invoices_no_downloads_witness :
  last (log (snd (main_body (W:=scripted) demo_client demo_args
                    (scripted_state [Ok (file_response 500 "busy")]))))
  = Some (INFO,
          "Download complete. Found 0 attachments, successfully downloaded 0").
Proof.
  refine (proj1 (proj2
            (X6_no_invoices_no_downloads (W:=scripted) demo_client demo_args
               (scripted_state [Ok (file_response 500 "busy")])
               (file_response 500 "busy") [] eq_refl (or_introl _)))).
  discriminate.
Defined.

Lemma X7_one_attempt_per_file_uri_witness :
  exists c' s',
    for_each [demo_attachment; VDict [("OriginalFileName", VStr "x.pdf")];
              demo_attachment] (mk_counters 3 0)
      (process_attachment (W:=scripted) demo_client (VStr "INV-42")
         (VStr "2024-03-05T00:00:00"))
      (scripted_state [Ok (file_response 404 "gone")])
    = (Ok c', s')
    /\ total_attachments c' = 3%Z
    /\ sent s' = [download_request (W:=scripted) demo_attachment;
                  download_request (W:=scripted) demo_attachment].
Proof.
  exact (X7_one_attempt_per_file_uri (W:=scripted) demo_client
           (VStr "INV-42") (VStr "2024-03-05T00:00:00")
           (DateTime.mk_datetime 2024 3 5 0 0 0)
           [demo_attachment; VDict [("OriginalFileName", VStr "x.pdf")];
            demo_attachment] (mk_counters 3 0)
           (scripted_state [Ok (file_response 404 "gone")])
           eq_refl eq_refl).
Defined.

Lemma X8_invoice_without_uid_witness :
  process_invoice (W:=scripted) demo_client (mk_counters 0 0)
    (VDict [("Number", VStr "INV-9")]) (scripted_state demo_script)
  = (Raise (Builtin (KeyError "UID")), scripted_state demo_script).
Proof.
  exact (proj1 (proj1 (X8_invoice_without_uid (W:=scripted) demo_client
                         (mk_counters 0 0) (VDict [("Number", VStr "INV-9")])
                         [demo_invoice] (scripted_state demo_script))
                  [("Number", VStr "INV-9")] eq_refl eq_refl)).
Defined.

Lemma X9_missing_fields_take_defaults_witness :
  process_invoice (W:=scripted) demo_client (mk_counters 0 0)
    (VDict [("UID", VStr "u1")]) (scripted_state demo_script)
  = process_invoice (W:=scripted) demo_client (mk_counters 0 0)
      (VDict [("Number", VStr "unknown"); ("UID", VStr "u1")])
      (scripted_state demo_script).
Proof.
  exact (proj1 (X9_missing_fields_take_defaults (W:=scripted) demo_client
                  (mk_counters 0 0) (scripted_state demo_script))
           [("UID", VStr "u1")] eq_refl).
Defined.

Lemma X10_attachment_listing_failure_is_skipped_witness :
  fst (process_invoice (W:=scripted) demo_client (mk_counters 4 2)
         demo_invoice (scripted_state [Ok (file_response 503 "busy")]))
  = Ok (mk_counters 4 2).
Proof.
  refine (proj1
            (X10_attachment_listing_failure_is_skipped (W:=scripted)
               demo_client (mk_counters 4 2) demo_invoice (VStr "INV-42")
               (VStr "2024-03-05T00:00:00") (VStr "u1")
               (scripted_state [Ok (file_response 503 "busy")])
               (file_response 503 "busy") [] eq_refl eq_refl eq_refl eq_refl
               eq_refl _)).
  discriminate.
Defined.

Lemma X11_query_string_with_filters_witness :
  query_string
    (filter_pairs (W:=scripted) [("Status", VStr "Open"); ("Type", VStr "Bill")])
    (plain_pairs (W:=scripted) [("$top", VInt 5)])
  = "filters[Status]=Open&filters[Type]=Bill&$top=5".
Proof.
  refine (X11_query_string_with_filters (W:=scripted)
            [("Status", VStr "Open"); ("Type", VStr "Bill")]
            [("$top", VInt 5)] _ _ eq_refl); discriminate.
Defined.

Lemma X12_second_download_overwrites_witness :
  files (snd (download_attachment (W:=scripted) demo_client
                (VStr "https://files.example/a2") "invoice_pdfs/a.pdf"
                (snd (download_attachment (W:=scripted) demo_client
                        (VStr "https://files.example/a1")
                        "invoice_pdfs/a.pdf"
                        (scripted_state [Ok (file_response 200 "old");
                                         Ok (file_response 200 "new")])))))
  = <["invoice_pdfs/a.pdf" := "new"]> ∅.
Proof.
  exact (proj1 (X12_second_download_overwrites (W:=scripted) demo_client
                  (VStr "https://files.example/a1")
                  (VStr "https://files.example/a2") "invoice_pdfs/a.pdf"
                  (scripted_state [Ok (file_response 200 "old");
                                   Ok (file_response 200 "new")])
                  (file_response 200 "old") (file_response 200 "new")
                  [Ok (file_response 200 "new")] []
                  eq_refl eq_refl eq_refl eq_refl eq_refl eq_refl)).
Defined.

Lemma X13_written_path_texts_witness :
  files (snd (main (W:=scripted) demo_args
                (scripted_state (accounts_answer :: demo_script))))
    !! "invoice_pdfs/notes.txt"
  = files (scripted_state (accounts_answer :: demo_script))
      !! "invoice_pdfs/notes.txt".
Proof.
  exact (proj1 (X13_written_path_texts (W:=scripted) demo_args
                  (scripted_state (accounts_answer :: demo_script)))
           "invoice_pdfs/notes.txt" eq_refl).
Defined.

(** The path text is built from what the server sends: an invoice
    numbered [../../tmp/x] is written under a text that starts with
    [invoice_pdfs/invoice_] and names a file outside [invoice_pdfs]. *)
Example path_text_from_server :
  files (snd (main (W:=scripted) demo_args
                (scripted_state (accounts_answer :: climbing_script))))
    !! "invoice_pdfs/invoice_20240305_../../tmp/x_receipt.pdf"
  = Some "%PDF".
Proof. vm_compute. reflexivity. Qed.

Lemma X14_only_plain_gets_witness :
  exists rqs,
    sent (snd (main (W:=scripted) demo_args
                 (scripted_state (accounts_answer :: demo_script))))
    = sent (scripted_state (accounts_answer :: demo_script)) ++ rqs
    /\ Forall (fun rq =>
                 req_method rq = "GET" /\ req_data rq = ""
                 /\ (req_headers rq = auth_headers "id" "token"
                     \/ req_headers rq = [])) rqs.
Proof.
  exact (X14_only_plain_gets (W:=scripted) demo_args
           (scripted_state (accounts_answer :: demo_script))).
Defined.

Lemma X15_default_params_stay_empty_witness :
  params_default (snd (main (W:=scripted) demo_args
                         (scripted_state (accounts_answer :: demo_script))))
  = [].
Proof.
  exact (X15_default_params_stay_empty (W:=scripted) demo_args
           (scripted_state (accounts_answer :: demo_script)) eq_refl).
Defined.

Lemma X16_total_counts_listed_attachments_witness :
  exists c',
    fst (process_invoice (W:=scripted) demo_client (mk_counters 0 0)
           demo_invoice (scripted_state (tl demo_script)))
    = Ok c'
    /\ total_attachments c'
       = (0 + Z.of_nat (length [demo_attachment; demo_attachment]))%Z.
Proof.
  eexists. split; cycle 1.
  - refine (X16_total_counts_listed_attachments (W:=scripted) demo_client
              (mk_counters 0 0) _ demo_invoice (VStr "INV-42")
              (VStr "2024-03-05T00:00:00") (VStr "u1")
              (scripted_state (tl demo_script)) _
              (json_response 200 "{..}"
                 (VDict [("Attachments",
                          VList [demo_attachment; demo_attachment])]))
              (tl (tl demo_script))
              [("Attachments", VList [demo_attachment; demo_attachment])]
              [demo_attachment; demo_attachment]
              eq_refl eq_refl eq_refl eq_refl eq_refl eq_refl eq_refl eq_refl
              _).
    vm_compute. reflexivity.
  - vm_compute. reflexivity.
Defined.

Lemma X17_date_validation_witness :
  DateTime.strptime_date "2024-02-29"
  = Some (DateTime.mk_datetime 2024 2 29 0 0 0).
Proof.
  refine (proj2 (X17_date_validation 2024 2 29) _ _ _);
    vm_compute; split; discriminate.
Defined.

Lemma X18_failed_download_files_witness :
  files (snd (download_attachment (W:=full_disk) demo_client
                (VStr "https://files.example/a1") "invoice_pdfs/a.pdf"
                (full_disk_state [Ok (file_response 200 "%PDF")]
                   (<["notes.txt" := "kept"]> ∅))))
    !! "notes.txt"
  = Some "kept".
Proof.
  refine (eq_trans
            (proj1 (proj2
               (X18_failed_download_files (W:=full_disk) demo_client
                  (VStr "https://files.example/a1") "invoice_pdfs/a.pdf"
                  (full_disk_state [Ok (file_response 200 "%PDF")]
                     (<["notes.txt" := "kept"]> ∅)) _
                  (Builtin (OSError "invoice_pdfs/a.pdf")) _))
               "notes.txt" _) _).
  - vm_compute. reflexivity.
  - discriminate.
  - vm_compute. reflexivity.
Defined.

(** On the full disk the download that raises has left the first two
    characters of the payload where the old file was. *)
Example torn_file_on_full_disk :
  files (snd (download_attachment (W:=full_disk) demo_client
                (VStr "https://files.example/a1") "invoice_pdfs/a.pdf"
                (full_disk_state [Ok (file_response 200 "%PDF")]
                   (<["invoice_pdfs/a.pdf" := "old"]> ∅))))
    !! "invoice_pdfs/a.pdf"
  = Some "%P".
Proof. vm_compute. reflexivity. Qed.

Lemma X19_send_request_returns_any_status_witness :
  fst (_send_request (W:=scripted) demo_client "POST"
         "https://ar.example/f1/Purchase/Bill" (Obj 0)
         (VDict [("Number", VStr "INV-1")])
         (scripted_heap_state [Ok (file_response 404 "nope")] [[]]))
  = Ok (file_response 404 "nope").
Proof.
  exact (proj1 (X19_send_request_returns_any_status (W:=scripted) demo_client
                  "POST" "https://ar.example/f1/Purchase/Bill" (Obj 0)
                  (VDict [("Number", VStr "INV-1")])
                  (scripted_heap_state [Ok (file_response 404 "nope")] [[]])
                  "" (file_response 404 "nope") [] eq_refl eq_refl)).
Defined.

Lemma X20_filters_must_be_a_dict_witness :
  _send_request (W:=scripted) demo_client "GET"
    "https://ar.example/f1/Purchase/Bill" (Obj 0) (VDict [])
    (scripted_heap_state demo_script [[("filters", VStr "Open")]])
  = (Raise (Builtin (AttributeError (VStr "Open") "items")),
     scripted_heap_state demo_script [[("filters", VStr "Open")]]).
Proof.
  exact (X20_filters_must_be_a_dict (W:=scripted) demo_client "GET"
           "https://ar.example/f1/Purchase/Bill" (Obj 0) (VDict [])
           (scripted_heap_state demo_script [[("filters", VStr "Open")]])
           (VStr "Open") eq_refl eq_refl).
Defined.

Lemma X21_discovery_comes_first_witness :
  exists rqs,
    sent (snd (main (W:=scripted) demo_args
                 (scripted_state (accounts_answer :: demo_script))))
    = [] ++ mk_request "GET" "https://api.myob.com/accountright/"
              [("Authorization", "Bearer token"); ("x-myobapi-key", "id");
               ("x-myobapi-version", "v2");
               ("Content-Type", "application/json")] ""
            :: rqs.
Proof.
  exact (X21_discovery_comes_first (W:=scripted) demo_args
           (scripted_state (accounts_answer :: demo_script))
           (DateTime.mk_datetime 2024 3 1 0 0 0)
           (DateTime.mk_datetime 2024 3 31 0 0 0) eq_refl eq_refl eq_refl).
Defined.

Lemma X22_items_without_length_witness :
  fst (get_invoices_between_dates (W:=scripted) demo_client "2024-03-01"
         "2024-03-31"
         (scripted_state
            [Ok (json_response 200 "{..}" (VDict [("Items", VNone)]))]))
  = Raise (Builtin (TypeError "len" VNone)).
Proof.
  exact (proj1 (X22_items_without_length (W:=scripted) demo_client
                  "2024-03-01" "2024-03-31"
                  (scripted_state
                     [Ok (json_response 200 "{..}"
                            (VDict [("Items", VNone)]))])
                  (json_response 200 "{..}" (VDict [("Items", VNone)])) []
                  [("Items", VNone)] VNone (Builtin (TypeError "len" VNone))
                  eq_refl eq_refl eq_refl eq_refl eq_refl)).
Defined.

Lemma X23_false_attachments_are_none_witness :
  fst (process_invoice (W:=scripted) demo_client (mk_counters 4 2)
         demo_invoice
         (scripted_state
            [Ok (json_response 200 "{..}" (VDict [("Attachments", VNone)]))]))
  = Ok (mk_counters 4 2).
Proof.
  exact (proj1
           (X23_false_attachments_are_none (W:=scripted) demo_client
              (mk_counters 4 2) demo_invoice (VStr "INV-42")
              (VStr "2024-03-05T00:00:00") (VStr "u1")
              (scripted_state
                 [Ok (json_response 200 "{..}"
                        (VDict [("Attachments", VNone)]))])
              (json_response 200 "{..}" (VDict [("Attachments", VNone)])) []
              [("Attachments", VNone)] VNone
              eq_refl eq_refl eq_refl eq_refl eq_refl eq_refl eq_refl eq_refl
              eq_refl)).
Defined.
